(** * AiiDA profile accessor and NWChem TCOD translator: a shallow embedding

    The development follows [aiida/common/profile.py] and
    [aiida/tools/dbexporters/tcod_plugins/nwcpymatgen.py].  Python values are
    an inductive type, dictionaries with string keys are finite maps, an
    exception is the [Raise] branch of a small error monad, and the
    process-wide state read by the code ([settings.AIIDADB_PROFILE], the
    configuration loader) is an explicit record passed to the functions. *)

From Stdlib Require Import Ascii String.
From stdpp Require Import gmap strings list fin_maps sorting.

Local Open Scope string_scope.

(** ** Python values and exceptions *)

Module Py.

(** The values the two modules handle: [None], booleans, byte strings, lists
    and dictionaries keyed by strings (the shape of a decoded JSON file and of
    [ParameterData.get_dict()]). *)
#[warnings="-register-all"]
Inductive pyval : Type :=
  | PNone
  | PBool (b : bool)
  | PStr (s : string)
  | PList (l : list pyval)
  | PDict (d : gmap string pyval).

(** The exceptions that occur.  The three configuration errors are those of
    [aiida.common.exceptions]; [OtherError] is any other exception of a
    collaborator.  [Unmodelled] is not a Python exception: it marks an input
    on which the behaviour lies outside the fragment of Python that is
    modelled here (a format field with a conversion, the text of a
    dictionary, a collaborator called outside its contract). *)
Inductive exception : Type :=
  | KeyError (key : string)
  | TypeError
  | ValueError
  | IndexError
  | AttributeError
  | ConfigurationError (msg : string)
  | MissingConfigurationError (msg : string)
  | ProfileConfigurationError (msg : string)
  | OtherError (msg : string)
  | Unmodelled.

Inductive result (A : Type) : Type :=
  | Ok (a : A)
  | Raise (e : exception).
Arguments Ok {A} a.
Arguments Raise {A} e.

#[export] Instance result_ret : MRet result := fun A a => Ok a.

#[export] Instance result_bind : MBind result := fun A B k m =>
  match m with
  | Ok a => k a
  | Raise e => Raise e
  end.

(** [try: m  except <class>: handler], where [catches e] says whether the
    raised exception is an instance of the class. *)
Definition try_except {A : Type} (m : result A) (catches : exception → bool)
    (handler : result A) : result A :=
  match m with
  | Ok a => Ok a
  | Raise e => if catches e then handler else Raise e
  end.

Definition is_KeyError (e : exception) : bool :=
  match e with KeyError _ => true | _ => false end.

Definition is_MissingConfigurationError (e : exception) : bool :=
  match e with MissingConfigurationError _ => true | _ => false end.

(** A comprehension [[f x for x in l]] whose body may raise: the first
    exception ends the evaluation. *)
Fixpoint for_each {A B : Type} (f : A → result B) (l : list A) : result (list B) :=
  match l with
  | [] => Ok []
  | x :: l' => y ← f x; ys ← for_each f l'; Ok (y :: ys)
  end.

(** Truth value of an object, as tested by [or]. *)
Definition truthy_str (s : string) : bool :=
  match s with EmptyString => false | String _ _ => true end.

(** [a or b] where [a] is [None] or a string: [a] when it is true, that is
    a non-empty string, and otherwise what evaluating [b] gives. *)
Definition py_or (a : option string) (b : result string) : result string :=
  match a with
  | Some s => if truthy_str s then Ok s else b
  | None => b
  end.

(** [obj[key]] for a string key: a dictionary looks the key up and raises
    [KeyError] when it is absent; no other value of [pyval] can be indexed by
    a string. *)
Definition getitem (obj : pyval) (key : string) : result pyval :=
  match obj with
  | PDict d => match d !! key with
               | Some v => Ok v
               | None => Raise (KeyError key)
               end
  | _ => Raise TypeError
  end.

(** [obj.keys()]: only a dictionary has the method. *)
Definition keys (obj : pyval) : result (list string) :=
  match obj with
  | PDict d => Ok (map_to_list d).*1
  | _ => Raise AttributeError
  end.

(** [key in d.keys()] *)
Definition has_key (d : gmap string pyval) (key : string) : bool :=
  bool_decide (is_Some (d !! key)).

(** A dictionary display [{k1: v1, ...}] with distinct keys. *)
Definition py_dict (items : list (string * pyval)) : pyval :=
  PDict (list_to_map items).

(** *** Strings *)

Definition quote : string := String "034"%char EmptyString.

(** [s.startswith(p)] *)
Definition startswith (s p : string) : bool := String.prefix p s.

(** [s.endswith(c)] for a one-character suffix. *)
Fixpoint endswith_char (s : string) (c : ascii) : bool :=
  match s with
  | EmptyString => false
  | String a EmptyString => Ascii.eqb a c
  | String _ rest => endswith_char rest c
  end.

(** [sub in s] *)
Definition contains (s sub : string) : Prop :=
  ∃ pre suf : string, s = pre ++ sub ++ suf.

(** [posixpath.join(a, *p)]: a component that starts with a slash discards
    what precedes it; otherwise it is appended, after a slash unless the path
    so far is empty or already ends with one. *)
Definition join2 (path b : string) : string :=
  if startswith b "/" then b
  else if negb (truthy_str path) || endswith_char path "/" then path ++ b
  else path ++ "/" ++ b.

Definition os_path_join (a : string) (p : list string) : string :=
  fold_left join2 p a.

(** *** [str.format]

    The template is read one character at a time, as the interpreter's
    markup iterator does: doubled braces are literal braces, [{}] takes the
    next positional argument, [{identifier}] a keyword argument.  Arguments
    are strings, inserted as they are (they are not scanned again). *)
Inductive fmt_mode : Type :=
  | Lit
  | Open
  | Field (name : string)
  | Close.

Definition is_ident_char (c : ascii) : bool :=
  let n := nat_of_ascii c in
  (Nat.leb 97 n && Nat.leb n 122) || (Nat.leb 65 n && Nat.leb n 90)
  || (Nat.leb 48 n && Nat.leb n 57) || Nat.eqb n 95.

Definition is_digit (c : ascii) : bool :=
  let n := nat_of_ascii c in Nat.leb 48 n && Nat.leb n 57.

Fixpoint all_ident (s : string) : bool :=
  match s with
  | EmptyString => true
  | String c rest => is_ident_char c && all_ident rest
  end.

Definition is_identifier (s : string) : bool :=
  match s with
  | EmptyString => false
  | String c _ => negb (is_digit c) && all_ident s
  end.

Fixpoint kw_lookup (kwargs : list (string * string)) (k : string) : option string :=
  match kwargs with
  | [] => None
  | (k', v) :: rest => if String.eqb k' k then Some v else kw_lookup rest k
  end.

Definition snoc (s : string) (c : ascii) : string := s ++ String c EmptyString.

Fixpoint format_go (tmpl : string) (mode : fmt_mode) (args : list string)
    (kwargs : list (string * string)) (out : string) : result string :=
  match tmpl with
  | EmptyString =>
      match mode with
      | Lit => Ok out
      | _ => Raise ValueError
      end
  | String c rest =>
      match mode with
      | Lit =>
          if Ascii.eqb c "{" then format_go rest Open args kwargs out
          else if Ascii.eqb c "}" then format_go rest Close args kwargs out
          else format_go rest Lit args kwargs (snoc out c)
      | Open =>
          if Ascii.eqb c "{" then format_go rest Lit args kwargs (snoc out c)
          else if Ascii.eqb c "}" then
            match args with
            | a :: args' => format_go rest Lit args' kwargs (out ++ a)
            | [] => Raise IndexError
            end
          else format_go rest (Field (String c EmptyString)) args kwargs out
      | Field f =>
          if Ascii.eqb c "}" then
            if is_identifier f then
              match kw_lookup kwargs f with
              | Some v => format_go rest Lit args kwargs (out ++ v)
              | None => Raise (KeyError f)
              end
            else Raise Unmodelled
          else if Ascii.eqb c "{" then Raise Unmodelled
          else format_go rest (Field (snoc f c)) args kwargs out
      | Close =>
          if Ascii.eqb c "}" then format_go rest Lit args kwargs (snoc out c)
          else Raise ValueError
      end
  end.

Definition format (tmpl : string) (args : list string)
    (kwargs : list (string * string)) : result string :=
  format_go tmpl Lit args kwargs EmptyString.

(** A string without braces holds no placeholder and no escape. *)
Fixpoint no_brace (s : string) : bool :=
  match s with
  | EmptyString => true
  | String c rest => negb (Ascii.eqb c "{") && negb (Ascii.eqb c "}") && no_brace rest
  end.

(** The text of a template whose first placeholder [{}] is replaced by [n]:
    what "the template with [n] substituted for the placeholder" denotes. *)
Fixpoint substituted (tmpl n : string) : string :=
  match tmpl with
  | EmptyString => EmptyString
  | String c rest =>
      if Ascii.eqb c "{" then
        match rest with
        | String d rest' =>
            if Ascii.eqb d "}" then n ++ rest' else String c (substituted rest n)
        | EmptyString => String c EmptyString
        end
      else String c (substituted rest n)
  end.

(** The head a file template gets from [os.path.join]. *)
Definition dir_head (dir : string) : string :=
  if negb (truthy_str dir) || endswith_char dir "/" then dir else dir ++ "/".

(** The text [format] inserts for a value: a string is inserted as it is,
    [None] and the booleans by their names. *)
Definition format_value (v : pyval) : result string :=
  match v with
  | PStr s => Ok s
  | PNone => Ok "None"
  | PBool true => Ok "True"
  | PBool false => Ok "False"
  | PList _ | PDict _ => Raise Unmodelled
  end.

(** *** [sorted] on strings: ascending in the order of [<] on [str], the
    lexicographic order of the character codes. *)
Definition str_le (a b : string) : Prop := String.leb a b = true.

#[export] Instance str_le_dec (a b : string) : Decision (str_le a b).
Proof. unfold str_le. apply _. Defined.

Definition sorted (l : list string) : list string := merge_sort str_le l.

End Py.

Import Py.

(** ** [aiida/common/profile.py] *)

(** The names the module takes from [aiida.common.setup], whose values are
    fixed elsewhere in the package. *)
Class Setup : Type := {
  AIIDA_CONFIG_FOLDER : string;
  PROFILE_UUID_KEY : string;
  DEFAULT_USER_CONFIG_FIELD : string;
}.

(** The process-wide state the functions read: the override
    [settings.AIIDADB_PROFILE] ([None] until something sets it), what
    [setup.get_config()] returns or raises, and how a loaded store designates
    its default profile. *)
Record World : Type := {
  AIIDADB_PROFILE : option string;
  get_config : result pyval;
  default_profile_of : pyval → result string;
}.

(** An instance of the class [Profile]. *)
Record Profile : Type := {
  _name : string;
  _config : gmap string pyval;
  _test_profile : bool;
}.

(** The attributes a [Profile] offers, all of them properties without a
    setter. *)
Inductive attr : Type :=
  | a_config
  | a_name
  | a_uuid
  | a_rmq_prefix
  | a_is_test_profile
  | a_default_user_email
  | a_filepaths.

(** What a caller can do with an instance: read an attribute or assign to
    it. *)
Inductive access : Type :=
  | Get (a : attr)
  | Assign (a : attr) (v : pyval).

Module profile.
Section profile.
Context {stp : Setup}.

Definition CONFIG_DIR : string := AIIDA_CONFIG_FOLDER.
Definition DAEMON_DIR : string := "daemon".
Definition DAEMON_LOG_DIR : string := "daemon/log".

Definition CIRCUS_PID_FILE_TEMPLATE : string :=
  os_path_join CONFIG_DIR [DAEMON_DIR; "circus-{}.pid"].
Definition DAEMON_PID_FILE_TEMPLATE : string :=
  os_path_join CONFIG_DIR [DAEMON_DIR; "aiida-{}.pid"].
Definition CIRCUS_LOG_FILE_TEMPLATE : string :=
  os_path_join CONFIG_DIR [DAEMON_LOG_DIR; "circus-{}.log"].
Definition DAEMON_LOG_FILE_TEMPLATE : string :=
  os_path_join CONFIG_DIR [DAEMON_LOG_DIR; "aiida-{}.log"].
Definition CIRCUS_PORT_FILE_TEMPLATE : string :=
  os_path_join CONFIG_DIR [DAEMON_DIR; "circus-{}.port"].
Definition CIRCUS_SOCKET_FILE_TEMPATE : string :=
  os_path_join CONFIG_DIR [DAEMON_DIR; "circus-{}.sockets"].
Definition CIRCUS_CONTROLLER_SOCKET_TEMPLATE : string := "circus.c.sock".
Definition CIRCUS_PUBSUB_SOCKET_TEMPLATE : string := "circus.p.sock".
Definition CIRCUS_STATS_SOCKET_TEMPLATE : string := "circus.s.sock".

(** Modelled from the spec: [setup.get_default_profile_name], which is not
    part of the sources at hand.  It "returns the configuration store's
    designated default profile name" and "fails with
    [MissingConfigurationError] if no configuration file exists": the store
    is loaded, a failure of the loader is passed on as it is, and the default
    is read from the loaded store. *)
Definition get_default_profile_name (w : World) : result string :=
  config ← get_config w; default_profile_of w config.

(** [settings.AIIDADB_PROFILE or setup.get_default_profile_name()] *)
Definition get_current_profile_name (w : World) : result string :=
  py_or (AIIDADB_PROFILE w) (get_default_profile_name w).

(** [if name is None: name = get_current_profile_name()] *)
Definition name_or_current (w : World) (name : option string) : result string :=
  match name with
  | None => get_current_profile_name w
  | Some n => Ok n
  end.

Definition COULD_NOT_LOAD : string := "could not load the configuration file".

Definition INVALID_PROFILE_NAME : string :=
  "invalid profile name " ++ quote ++ "{}" ++ quote.

Definition get_profile_config (w : World) (name : option string) : result pyval :=
  name ← name_or_current w name;
  config ← try_except (get_config w) is_MissingConfigurationError
             (Raise (MissingConfigurationError COULD_NOT_LOAD));
  profile ← try_except
              (profiles ← getitem config "profiles"; getitem profiles name)
              is_KeyError
              (msg ← format INVALID_PROFILE_NAME [name] [];
               Raise (ProfileConfigurationError msg));
  Ok profile.

(** Modelled from the spec: the class [AttributeDict] of
    [aiida.common.extendeddicts], which is not part of the sources at hand:
    "an attribute-accessible mapping of string keys to arbitrary values",
    here the mapping with the entries of the dictionary it is built from.
    What the constructor does with a value that is no dictionary is not
    modelled. *)
Definition AttributeDict (config : pyval) : result (gmap string pyval) :=
  match config with
  | PDict d => Ok d
  | _ => Raise Unmodelled
  end.

(** [Profile.__init__] *)
Definition Profile_init (name : string) (config : pyval) : result Profile :=
  cfg ← AttributeDict config;
  Ok {| _name := name; _config := cfg; _test_profile := startswith name "test_" |}.

Definition get_profile (w : World) (name : option string) : result Profile :=
  name ← name_or_current w name;
  config ← get_profile_config w (Some name);
  Profile_init name config.

Definition _RMQ_PREFIX : string := "aiida-{uuid}".

Definition config (self : Profile) : pyval := PDict (_config self).

Definition name (self : Profile) : string := _name self.

Definition uuid (self : Profile) : result pyval :=
  getitem (config self) PROFILE_UUID_KEY.

Definition rmq_prefix (self : Profile) : result string :=
  u ← uuid self;
  text ← format_value u;
  format _RMQ_PREFIX [] [("uuid", text)].

Definition is_test_profile (self : Profile) : bool := _test_profile self.

Definition NO_KEY_FOUND : string :=
  "No '{}' key found in the AiiDA configuration file".

Definition default_user_email (self : Profile) : result pyval :=
  email ← try_except
            (getitem (config self) DEFAULT_USER_CONFIG_FIELD)
            is_KeyError
            (msg ← format NO_KEY_FOUND [DEFAULT_USER_CONFIG_FIELD] [];
             Raise (ConfigurationError msg));
  Ok email.

Definition filepaths (self : Profile) : result pyval :=
  circus_log ← format CIRCUS_LOG_FILE_TEMPLATE [name self] [];
  circus_pid ← format CIRCUS_PID_FILE_TEMPLATE [name self] [];
  circus_port ← format CIRCUS_PORT_FILE_TEMPLATE [name self] [];
  socket_file ← format CIRCUS_SOCKET_FILE_TEMPATE [name self] [];
  daemon_log ← format DAEMON_LOG_FILE_TEMPLATE [name self] [];
  daemon_pid ← format DAEMON_PID_FILE_TEMPLATE [name self] [];
  Ok (py_dict [
    ("circus", py_dict [
       ("log", PStr circus_log);
       ("pid", PStr circus_pid);
       ("port", PStr circus_port);
       ("socket", py_dict [
          ("file", PStr socket_file);
          ("controller", PStr CIRCUS_CONTROLLER_SOCKET_TEMPLATE);
          ("pubsub", PStr CIRCUS_PUBSUB_SOCKET_TEMPLATE);
          ("stats", PStr CIRCUS_STATS_SOCKET_TEMPLATE)])]);
    ("daemon", py_dict [
       ("log", PStr daemon_log);
       ("pid", PStr daemon_pid)])]).

(** Reading an attribute of an instance. *)
Definition getattr (self : Profile) (a : attr) : result pyval :=
  match a with
  | a_config => Ok (config self)
  | a_name => Ok (PStr (name self))
  | a_uuid => uuid self
  | a_rmq_prefix => s ← rmq_prefix self; Ok (PStr s)
  | a_is_test_profile => Ok (PBool (is_test_profile self))
  | a_default_user_email => default_user_email self
  | a_filepaths => filepaths self
  end.

(** Assigning to an attribute: each one is a [@property] for which the class
    defines no setter, so the assignment raises and the instance is left as
    it was. *)
Definition setattr (self : Profile) (a : attr) (v : pyval) : result Profile :=
  Raise AttributeError.

(** The instance after one access, and after a sequence of them. *)
Definition step (self : Profile) (x : access) : Profile :=
  match x with
  | Get a => self
  | Assign a v =>
      match setattr self a v with
      | Ok self' => self'
      | Raise _ => self
      end
  end.

Definition run (self : Profile) (xs : list access) : Profile :=
  fold_left step xs self.

End profile.
End profile.

(** The dictionary [filepaths] builds for the name [n], with the head [d]
    that [os.path.join] gives every template. *)
Definition layout (d n : string) : pyval :=
  py_dict [
    ("circus", py_dict [
       ("log", PStr (d ++ "daemon/log/circus-" ++ n ++ ".log"));
       ("pid", PStr (d ++ "daemon/circus-" ++ n ++ ".pid"));
       ("port", PStr (d ++ "daemon/circus-" ++ n ++ ".port"));
       ("socket", py_dict [
          ("file", PStr (d ++ "daemon/circus-" ++ n ++ ".sockets"));
          ("controller", PStr "circus.c.sock");
          ("pubsub", PStr "circus.p.sock");
          ("stats", PStr "circus.s.sock")])]);
    ("daemon", py_dict [
       ("log", PStr (d ++ "daemon/log/aiida-" ++ n ++ ".log"));
       ("pid", PStr (d ++ "daemon/aiida-" ++ n ++ ".pid"))])].

(** [fp[k1][k2]...]: the entry of a nested dictionary under a sequence of
    keys. *)
Definition path_at (fp : pyval) (ks : list string) : result pyval :=
  fold_left (λ r k, v ← r; getitem v k) ks (Ok fp).

(** The keys of the six entries of [filepaths] that are built from a
    template and the profile name, and of the three that are fixed names. *)
Definition templated_entries : list (list string) :=
  [["circus"; "log"]; ["circus"; "pid"]; ["circus"; "port"];
   ["circus"; "socket"; "file"]; ["daemon"; "log"]; ["daemon"; "pid"]]%list.

Definition fixed_entries : list (list string) :=
  [["circus"; "socket"; "controller"]; ["circus"; "socket"; "pubsub"];
   ["circus"; "socket"; "stats"]]%list.

(** ** [aiida/tools/dbexporters/tcod_plugins/nwcpymatgen.py] *)

(** A calculation, as far as the translator reads it: the dictionary of its
    output parameters, [calc.out.output.get_dict()]. *)
Record Calculation : Type := {
  output_dict : gmap string pyval;
}.

Module nwcpymatgen.

Definition get_software_package (calc : Calculation) : string := "NWChem".

Definition get_atom_type_symbol (calc : Calculation) : result (option (list string)) :=
  let dictionary := output_dict calc in
  if negb (has_key dictionary "basis_set") then Ok None
  else
    basis_set ← getitem (PDict dictionary) "basis_set";
    symbols ← keys basis_set;
    Ok (Some (sorted symbols)).

(** [for x in cls.get_atom_type_symbol(calc)]: [None] cannot be iterated. *)
Definition iterate (symbols : option (list string)) : result (list string) :=
  match symbols with
  | Some xs => Ok xs
  | None => Raise TypeError
  end.

Definition get_atom_type_basisset (calc : Calculation) : result (option (list pyval)) :=
  let dictionary := output_dict calc in
  if negb (has_key dictionary "basis_set") then Ok None
  else
    symbols ← get_atom_type_symbol calc;
    xs ← iterate symbols;
    l ← for_each (fun x =>
           basis_set ← getitem (PDict dictionary) "basis_set";
           entry ← getitem basis_set x;
           getitem entry "description") xs;
    Ok (Some l).

Definition get_atom_type_valence_configuration (calc : Calculation)
    : result (option (list pyval)) :=
  let dictionary := output_dict calc in
  if negb (has_key dictionary "basis_set") then Ok None
  else
    symbols ← get_atom_type_symbol calc;
    xs ← iterate symbols;
    l ← for_each (fun x =>
           basis_set ← getitem (PDict dictionary) "basis_set";
           entry ← getitem basis_set x;
           getitem entry "types") xs;
    Ok (Some l).

(** [except Exception]: every exception of the model is an instance. *)
Definition is_Exception (e : exception) : bool := true.

(** [get_software_package_version].  The argument stands for
    [calc.out.job_info.get_dict()]: the dictionary of the [job_info] output,
    or the exception raised on the way to it (a calculation without that
    output raises [AttributeError]). *)
Definition get_software_package_version (job_info : result pyval) : result pyval :=
  try_except
    (dictionary ← job_info; getitem dictionary "nwchem branch")
    is_Exception
    (Ok PNone).

End nwcpymatgen.

(** The comprehension of the two list functions, for the entry [field]. *)
Definition entries (dictionary : gmap string pyval) (field : string)
    (xs : list string) : result (list pyval) :=
  for_each (λ x, basis_set ← getitem (PDict dictionary) "basis_set";
                 entry ← getitem basis_set x;
                 getitem entry field) xs.

(** ** Concrete configurations

    The values [aiida.common.setup] gives the three names, a configuration
    store with two profiles, and process states over it.  They serve as the
    concrete inputs of the examples below. *)

Module fixtures.

#[export] Instance aiida_setup : Setup := {|
  AIIDA_CONFIG_FOLDER := "~/.aiida";
  PROFILE_UUID_KEY := "PROFILE_UUID";
  DEFAULT_USER_CONFIG_FIELD := "default_user_email";
|}.

Definition default_profile_config : gmap string pyval :=
  list_to_map [
    ("PROFILE_UUID", PStr "9f3a1c2e5b7d4e0fa1b2c3d4e5f60718");
    ("default_user_email", PStr "user@example.org");
    ("AIIDADB_NAME", PStr "aiidadb")].

(** A profile whose configuration has neither a UUID nor a user email. *)
Definition bare_profile_config : gmap string pyval :=
  list_to_map [("AIIDADB_NAME", PStr "aiidadb_test")].

Definition store_profiles : gmap string pyval :=
  list_to_map [
    ("default", PDict default_profile_config);
    ("test_abc", PDict bare_profile_config)].

Definition store : gmap string pyval :=
  list_to_map [
    ("default_profile", PStr "default");
    ("profiles", PDict store_profiles)].

(** The two profiles of the store, as [Profile.__init__] builds them. *)
Definition default_profile : Profile := {|
  _name := "default";
  _config := default_profile_config;
  _test_profile := false;
|}.

Definition test_profile : Profile := {|
  _name := "test_abc";
  _config := bare_profile_config;
  _test_profile := true;
|}.

(** The default profile of a store kept under the key [default_profile]. *)
Definition read_default_profile (config : pyval) : result string :=
  v ← getitem config "default_profile";
  match v with
  | PStr s => Ok s
  | _ => Raise Unmodelled
  end.

(** No override, the store loaded. *)
Definition plain_world : World := {|
  AIIDADB_PROFILE := None;
  get_config := Ok (PDict store);
  default_profile_of := read_default_profile;
|}.

(** The override set to a profile name. *)
Definition override_world : World := {|
  AIIDADB_PROFILE := Some "test_abc";
  get_config := Ok (PDict store);
  default_profile_of := read_default_profile;
|}.

(** The override set to the empty string. *)
Definition empty_override_world : World := {|
  AIIDADB_PROFILE := Some EmptyString;
  get_config := Ok (PDict store);
  default_profile_of := read_default_profile;
|}.



(** The output parameters of an NWChem run on water, and of a run whose
    parser found no basis set. *)
Definition water_basis_set : gmap string pyval :=
  list_to_map [
    ("O", py_dict [("description", PStr "6-31g"); ("functions", PStr "9");
                   ("types", PStr "3s2p")]);
    ("H", py_dict [("description", PStr "sto-3g"); ("functions", PStr "2");
                   ("types", PStr "2s")])].

Definition water_calc : Calculation := {|
  output_dict := list_to_map [
    ("basis_set", PDict water_basis_set);
    ("total_energy", PStr "-75.98")];
|}.

Definition bare_calc : Calculation := {|
  output_dict := list_to_map [("total_energy", PStr "-75.98")];
|}.

(** A run whose entry for hydrogen has no [description]. *)
Definition partial_basis_set : gmap string pyval :=
  list_to_map [("H", py_dict [("types", PStr "2s")])].

Definition partial_calc : Calculation := {|
  output_dict := list_to_map [("basis_set", PDict partial_basis_set)];
|}.

(** A store without a [profiles] table, a store whose [profiles] entry is
    a string, and a loader that fails on a file it cannot decode. *)
Definition no_profiles_world : World := {|
  AIIDADB_PROFILE := None;
  get_config := Ok (py_dict [("default_profile", PStr "default")]);
  default_profile_of := read_default_profile;
|}.

Definition bad_profiles_world : World := {|
  AIIDADB_PROFILE := None;
  get_config := Ok (py_dict [("profiles", PStr "default")]);
  default_profile_of := read_default_profile;
|}.

Definition corrupt_config_world : World := {|
  AIIDADB_PROFILE := None;
  get_config := Raise ValueError;
  default_profile_of := read_default_profile;
|}.

(** A profile named [default2] over the configuration of [default]. *)
Definition second_profile : Profile := {|
  _name := "default2";
  _config := default_profile_config;
  _test_profile := false;
|}.

(** The [job_info] dictionary of an NWChem run. *)
Definition water_job_info : pyval :=
  py_dict [("nwchem branch", PStr "6.6"); ("compiled", PStr "Mon_Feb_20_2017")].

(** Runs whose [basis_set] is empty, and is a string. *)
Definition empty_basis_calc : Calculation := {|
  output_dict := list_to_map [("basis_set", PDict ∅)];
|}.

Definition string_basis_calc : Calculation := {|
  output_dict := list_to_map [("basis_set", PStr "6-31g")];
|}.

(** A run whose entry for hydrogen has no [types]. *)
Definition untyped_basis_set : gmap string pyval :=
  list_to_map [("H", py_dict [("description", PStr "sto-3g")])].

Definition untyped_calc : Calculation := {|
  output_dict := list_to_map [("basis_set", PDict untyped_basis_set)];
|}.

(** A profile with another UUID. *)
Definition other_profile : Profile := {|
  _name := "other";
  _config := list_to_map [
    ("PROFILE_UUID", PStr "27c0e9d1a4b84f6c8d3e5f7a9b1c2d3e");
    ("default_user_email", PStr "user@example.org")];
  _test_profile := false;
|}.

End fixtures.

(** * Properties *)

(** ** Strings, templates and sorting *)

Section strings.

#[local] Arguments append !s1 s2 / : simpl nomatch.

Lemma append_assoc (a b c : string) : (a ++ b) ++ c = a ++ (b ++ c).
Proof. induction a as [|x a IH]; simpl; [done | by f_equal]. Qed.

Lemma append_nil_r (a : string) : a ++ EmptyString = a.
Proof. induction a as [|x a IH]; simpl; [done | by f_equal]. Qed.

Lemma contains_middle (pre sub suf : string) : contains (pre ++ sub ++ suf) sub.
Proof. by exists pre, suf. Qed.

Lemma startswith_spec (s p : string) :
  startswith s p = true ↔ ∃ rest, s = p ++ rest.
Proof.
  unfold startswith. revert s.
  induction p as [|c p IH]; intros s.
  - split; [intros _; by exists s | intros _; by destruct s].
  - destruct s as [|d s].
    + split; [done | intros [rest Hr]; discriminate].
    + cbn [String.prefix]. destruct (ascii_dec c d) as [->|Hne].
      * rewrite IH. split; intros [rest Hr]; exists rest; simpl in *; congruence.
      * split; [done | intros [rest Hr]; simpl in Hr; congruence].
Qed.

Lemma truthy_append (a b : string) :
  truthy_str b = true → truthy_str (a ++ b) = true.
Proof. destruct a, b; simpl; done. Qed.

Lemma endswith_char_append (a b : string) (c : ascii) :
  truthy_str b = true → endswith_char (a ++ b) c = endswith_char b c.
Proof.
  intros Hb. induction a as [|x a IH]; [done |].
  simpl. rewrite IH. destruct (a ++ b) eqn:E; [|done].
  destruct a, b; simpl in *; done.
Qed.

Lemma format_go_literal (pre rest : string) args kwargs (out : string) :
  no_brace pre = true →
  format_go (pre ++ rest) Lit args kwargs out
  = format_go rest Lit args kwargs (out ++ pre).
Proof.
  revert out. induction pre as [|c pre IH]; intros out Hnb; simpl.
  - by rewrite append_nil_r.
  - simpl in Hnb. apply andb_prop in Hnb as [Hc Hnb].
    apply andb_prop in Hc as [Ho Hc].
    apply negb_true_iff in Ho, Hc. rewrite Ho, Hc.
    rewrite IH by done. unfold snoc. by rewrite append_assoc.
Qed.

Lemma substituted_literal (pre rest n : string) :
  no_brace pre = true → substituted (pre ++ rest) n = pre ++ substituted rest n.
Proof.
  induction pre as [|c pre IH]; intros Hnb; simpl; [done |].
  simpl in Hnb. apply andb_prop in Hnb as [Hc Hnb].
  apply andb_prop in Hc as [Ho _]. apply negb_true_iff in Ho.
  rewrite Ho. by rewrite IH.
Qed.

Lemma os_path_join_template (dir sub file : string) :
  startswith sub "/" = false → startswith file "/" = false →
  truthy_str sub = true → endswith_char sub "/" = false →
  os_path_join dir [sub; file] = dir_head dir ++ sub ++ "/" ++ file.
Proof.
  intros Hs Hf Hsub He. unfold os_path_join, dir_head. simpl.
  unfold join2 at 2. rewrite Hs.
  unfold join2. rewrite Hf.
  destruct (negb (truthy_str dir) || endswith_char dir "/") eqn:E.
  - rewrite truthy_append, endswith_char_append, He by done. simpl.
    by rewrite !append_assoc.
  - rewrite truthy_append by by apply truthy_append.
    rewrite endswith_char_append by by apply truthy_append.
    rewrite endswith_char_append, He by done. simpl.
    by rewrite !append_assoc.
Qed.

Lemma no_brace_append (a b : string) :
  no_brace a = true → no_brace b = true → no_brace (a ++ b) = true.
Proof.
  intros Ha Hb. induction a as [|c a IH]; simpl in *; [done |].
  apply andb_prop in Ha as [Hc Ha]. rewrite Hc. simpl. by apply IH.
Qed.

Lemma no_brace_dir_head (dir : string) :
  no_brace dir = true → no_brace (dir_head dir) = true.
Proof.
  intros H. unfold dir_head.
  destruct (negb (truthy_str dir) || endswith_char dir "/"); [done |].
  by apply no_brace_append.
Qed.

(** A template [head ++ stem ++ "{}" ++ ext] whose literal parts hold no
    brace, formatted with one argument. *)
Lemma format_one_placeholder (head tail n : string) :
  no_brace head = true → no_brace tail = true →
  format (head ++ "{}" ++ tail) [n] [] = Ok (head ++ n ++ tail)
  ∧ substituted (head ++ "{}" ++ tail) n = head ++ n ++ tail.
Proof.
  intros Hh Ht. split.
  - unfold format. rewrite format_go_literal by done. simpl.
    rewrite <- (append_nil_r tail) at 1.
    rewrite format_go_literal by done. simpl.
    by rewrite append_assoc.
  - rewrite substituted_literal by done. done.
Qed.

End strings.

(** The order of [sorted] is a total order, so a sorted list without
    duplicates is determined by its elements. *)
Section order.

Lemma ascii_compare_nat (a b : ascii) :
  Ascii.compare a b = N.compare (N_of_ascii a) (N_of_ascii b).
Proof. done. Qed.

Lemma ascii_compare_refl (a : ascii) : Ascii.compare a a = Eq.
Proof. rewrite ascii_compare_nat. apply N.compare_refl. Qed.

Lemma string_compare_trans (c : comparison) (x y z : string) :
  String.compare x y = c → String.compare y z = c → String.compare x z = c.
Proof.
  revert y z. induction x as [|a x IH]; intros [|b y] [|d z]; simpl; try congruence.
  rewrite !ascii_compare_nat.
  destruct (N.compare_spec (N_of_ascii a) (N_of_ascii b)) as [Hab|Hab|Hab];
    destruct (N.compare_spec (N_of_ascii b) (N_of_ascii d)) as [Hbd|Hbd|Hbd];
    destruct (N.compare_spec (N_of_ascii a) (N_of_ascii d)) as [Had|Had|Had];
    try congruence; try lia; eauto.
Qed.

Lemma string_compare_eq (x y : string) : String.compare x y = Eq ↔ x = y.
Proof.
  split; [apply String.compare_eq_iff |].
  intros <-. induction x as [|a x IH]; simpl; [done |].
  by rewrite ascii_compare_refl.
Qed.

#[export] Instance str_le_trans : Transitive str_le.
Proof.
  intros x y z. unfold str_le, String.leb.
  destruct (String.compare x y) eqn:Hxy; [| |done];
    destruct (String.compare y z) eqn:Hyz; try done; intros _ _.
  - by rewrite (string_compare_trans Eq x y z).
  - apply string_compare_eq in Hxy as ->. by rewrite Hyz.
  - apply string_compare_eq in Hyz as <-. by rewrite Hxy.
  - by rewrite (string_compare_trans Lt x y z).
Qed.

#[export] Instance str_le_total : Total str_le.
Proof. intros x y. apply String.leb_total. Qed.

#[export] Instance str_le_antisym : AntiSymm (=) str_le.
Proof. intros x y. apply String.leb_antisym. Qed.

Lemma sorted_Sorted (l : list string) : Sorted str_le (sorted l).
Proof. apply (Sorted_merge_sort str_le). Qed.

Lemma sorted_Permutation (l : list string) : sorted l ≡ₚ l.
Proof. apply merge_sort_Permutation. Qed.

(** Whatever the order in which a dictionary yields its keys, [sorted]
    gives the same list. *)
Lemma sorted_unique (l l' : list string) : l ≡ₚ l' → sorted l = sorted l'.
Proof.
  intros Hp. apply (Sorted_unique str_le); try apply sorted_Sorted.
  by rewrite !sorted_Permutation.
Qed.

Lemma sorted_keys (d : gmap string pyval) :
  let l := sorted (map_to_list d).*1 in
  Sorted str_le l ∧ NoDup l ∧ ∀ x, x ∈ l ↔ is_Some (d !! x).
Proof.
  simpl. split; [apply sorted_Sorted |]. split.
  - rewrite sorted_Permutation. apply NoDup_fst_map_to_list.
  - intros x. rewrite sorted_Permutation, list_elem_of_fmap. split.
    + intros [[k v] [-> Hin]]. apply elem_of_map_to_list in Hin. by exists v.
    + intros [v Hv]. exists (x, v). split; [done |]. by apply elem_of_map_to_list.
Qed.

End order.

(** ** The profile accessor *)

Section profile_properties.
Context {stp : Setup}.

#[local] Arguments append !s1 s2 / : simpl nomatch.

Lemma format_invalid_profile_name (n : string) :
  format profile.INVALID_PROFILE_NAME [n] []
  = Ok ("invalid profile name " ++ quote ++ n ++ quote).
Proof. reflexivity. Qed.

Lemma format_no_key_found (k : string) :
  format profile.NO_KEY_FOUND [k] []
  = Ok ("No '" ++ k ++ "' key found in the AiiDA configuration file").
Proof.
  exact (proj1 (format_one_placeholder "No '"
                  "' key found in the AiiDA configuration file" k eq_refl eq_refl)).
Qed.

Lemma format_rmq_prefix (u : string) :
  format profile._RMQ_PREFIX [] [("uuid", u)] = Ok ("aiida-" ++ u).
Proof. reflexivity. Qed.

(** Unfolds the monadic plumbing of a goal. *)
Ltac py_unfold :=
  unfold profile.get_profile, profile.get_profile_config,
    profile.name_or_current, profile.get_current_profile_name, py_or,
    profile.get_default_profile_name, profile.Profile_init,
    profile.AttributeDict, try_except, getitem;
  cbn [mbind result_bind mret result_ret].

(** No access changes an instance: reading has no effect and every
    assignment is refused. *)
Lemma run_unchanged (p : Profile) (xs : list access) : profile.run p xs = p.
Proof.
  unfold profile.run. induction xs as [|x xs IH]; [done |].
  simpl. by destruct x.
Qed.

(** C1, amended.  The override is returned whenever it is set to a
    non-empty string.  When it is unset, or set to the empty string, the
    result is that of the default-name lookup: for a loaded store, the name
    the store designates as its default. *)
Theorem current_profile_name_resolution (w : World) :
  (∀ s, AIIDADB_PROFILE w = Some s → s ≠ EmptyString →
        profile.get_current_profile_name w = Ok s)
  ∧ (AIIDADB_PROFILE w = None ∨ AIIDADB_PROFILE w = Some EmptyString →
     profile.get_current_profile_name w = profile.get_default_profile_name w
     ∧ ∀ store, get_config w = Ok store →
         profile.get_current_profile_name w = default_profile_of w store).
Proof.
  unfold profile.get_current_profile_name, py_or. split.
  - intros s -> Hs. by destruct s.
  - intros H.
    assert (match AIIDADB_PROFILE w with
            | Some s => if truthy_str s
                        then Ok s else profile.get_default_profile_name w
            | None => profile.get_default_profile_name w
            end = profile.get_default_profile_name w) as ->
      by (destruct H as [-> | ->]; done).
    split; [done |]. intros store Hs.
    unfold profile.get_default_profile_name. by rewrite Hs.
Qed.

(** C2.  With the store loaded, a requested name that the [profiles]
    mapping does not hold makes [get_profile_config], and with it
    [get_profile], raise [ProfileConfigurationError]; the message is
    [invalid profile name "<name>"] and so contains the name. *)
Theorem unknown_profile_name_rejected (w : World)
    (store profiles : gmap string pyval) (n : string) :
  get_config w = Ok (PDict store) →
  store !! "profiles" = Some (PDict profiles) →
  profiles !! n = None →
  ∃ msg,
    profile.get_profile_config w (Some n) = Raise (ProfileConfigurationError msg)
    ∧ profile.get_profile w (Some n) = Raise (ProfileConfigurationError msg)
    ∧ msg = "invalid profile name " ++ quote ++ n ++ quote
    ∧ contains msg n.
Proof.
  intros Hc Hs Hn. exists ("invalid profile name " ++ quote ++ n ++ quote).
  assert (profile.get_profile_config w (Some n)
          = Raise (ProfileConfigurationError
                     ("invalid profile name " ++ quote ++ n ++ quote))) as Hcfg.
  { py_unfold. rewrite Hc. cbn [mbind result_bind]. rewrite Hs.
    cbn [mbind result_bind]. rewrite Hn. cbn [is_KeyError].
    by rewrite format_invalid_profile_name. }
  split; [done |]. split.
  - unfold profile.get_profile, profile.name_or_current.
    cbn [mbind result_bind]. by rewrite Hcfg.
  - split; [done |].
    exists ("invalid profile name " ++ quote), quote. by rewrite append_assoc.
Qed.


(** C4.  For a name that the loaded store's [profiles] mapping holds,
    [get_profile] returns a profile over that entry whose [name] is the
    requested name; every assignment to an attribute is refused, and the
    name is the same after any sequence of accesses. *)
Theorem get_profile_name (w : World) (store profiles d : gmap string pyval)
    (n : string) :
  get_config w = Ok (PDict store) →
  store !! "profiles" = Some (PDict profiles) →
  profiles !! n = Some (PDict d) →
  ∃ p,
    profile.get_profile w (Some n) = Ok p
    ∧ profile.name p = n
    ∧ profile.config p = PDict d
    ∧ (∀ a v, profile.setattr p a v = Raise AttributeError)
    ∧ (∀ xs, profile.name (profile.run p xs) = n).
Proof.
  intros Hc Hs Hn.
  exists {| _name := n; _config := d; _test_profile := startswith n "test_" |}.
  split.
  - py_unfold. rewrite Hc. cbn [mbind result_bind]. rewrite Hs.
    cbn [mbind result_bind]. by rewrite Hn.
  - repeat split; try done. intros xs. by rewrite run_unchanged.
Qed.

(** A file template of the module, [os.path.join(CONFIG_DIR, sub, stem{}ext)],
    formatted with a name: the name takes the place of the placeholder. *)
Lemma format_file_template (sub stem ext n : string) :
  no_brace AIIDA_CONFIG_FOLDER = true →
  no_brace sub = true → no_brace stem = true → no_brace ext = true →
  startswith sub "/" = false → startswith (stem ++ "{}" ++ ext) "/" = false →
  truthy_str sub = true → endswith_char sub "/" = false →
  let tmpl := os_path_join profile.CONFIG_DIR [sub; stem ++ "{}" ++ ext] in
  let text := dir_head profile.CONFIG_DIR ++ sub ++ "/" ++ stem ++ n ++ ext in
  format tmpl [n] [] = Ok text ∧ substituted tmpl n = text.
Proof.
  intros Hd Hsub Hstem Hext Hs Hf Ht He. cbn zeta.
  rewrite os_path_join_template by done.
  pose proof (format_one_placeholder
                (dir_head profile.CONFIG_DIR ++ sub ++ "/" ++ stem) ext n) as H.
  rewrite !append_assoc in H. apply H; [|done].
  repeat apply no_brace_append; try done. by apply no_brace_dir_head.
Qed.

Ltac split_templates :=
  change "circus-{}.log" with ("circus-" ++ "{}" ++ ".log");
  change "circus-{}.pid" with ("circus-" ++ "{}" ++ ".pid");
  change "circus-{}.port" with ("circus-" ++ "{}" ++ ".port");
  change "circus-{}.sockets" with ("circus-" ++ "{}" ++ ".sockets");
  change "aiida-{}.log" with ("aiida-" ++ "{}" ++ ".log");
  change "aiida-{}.pid" with ("aiida-" ++ "{}" ++ ".pid").

Ltac file_template sub stem ext n H :=
  destruct (format_file_template sub stem ext n) as [H _];
  [done | reflexivity | reflexivity | reflexivity | reflexivity | reflexivity
  | reflexivity | reflexivity |].

(** C5.  If the configuration directory holds no brace, [filepaths]
    returns a dictionary whose entry [["daemon"]["pid"]] is the daemon pid
    template with the profile name in place of the placeholder; for a
    non-empty directory without a final slash the template is
    [<config_dir>/daemon/aiida-{}.pid].  The result depends on the name
    alone: two profiles of the same name have the same [filepaths]. *)
Theorem filepaths_daemon_pid (p : Profile) :
  no_brace AIIDA_CONFIG_FOLDER = true →
  ∃ fp daemon,
    profile.filepaths p = Ok fp
    ∧ getitem fp "daemon" = Ok daemon
    ∧ getitem daemon "pid"
      = Ok (PStr (substituted profile.DAEMON_PID_FILE_TEMPLATE (profile.name p)))
    ∧ substituted profile.DAEMON_PID_FILE_TEMPLATE (profile.name p)
      = dir_head profile.CONFIG_DIR ++ "daemon/aiida-" ++ profile.name p ++ ".pid"
    ∧ (truthy_str AIIDA_CONFIG_FOLDER = true →
       endswith_char AIIDA_CONFIG_FOLDER "/" = false →
       profile.DAEMON_PID_FILE_TEMPLATE
       = AIIDA_CONFIG_FOLDER ++ "/daemon/aiida-{}.pid")
    ∧ (∀ q, profile.name q = profile.name p →
            profile.filepaths q = profile.filepaths p).
Proof.
  intros Hd. set (n := profile.name p).
  file_template "daemon/log" "circus-" ".log" n H1.
  file_template "daemon" "circus-" ".pid" n H2.
  file_template "daemon" "circus-" ".port" n H3.
  file_template "daemon" "circus-" ".sockets" n H4.
  file_template "daemon/log" "aiida-" ".log" n H5.
  destruct (format_file_template "daemon" "aiida-" ".pid" n) as [H6 H7];
    try done.
  cbn zeta in *.
  eexists _, _. split.
  { unfold profile.filepaths. fold n.
    unfold profile.CIRCUS_LOG_FILE_TEMPLATE, profile.CIRCUS_PID_FILE_TEMPLATE,
      profile.CIRCUS_PORT_FILE_TEMPLATE, profile.CIRCUS_SOCKET_FILE_TEMPATE,
      profile.DAEMON_LOG_FILE_TEMPLATE, profile.DAEMON_PID_FILE_TEMPLATE,
      profile.DAEMON_DIR, profile.DAEMON_LOG_DIR.
    split_templates.
    rewrite H1. cbn [mbind result_bind]. rewrite H2. cbn [mbind result_bind].
    rewrite H3. cbn [mbind result_bind]. rewrite H4. cbn [mbind result_bind].
    rewrite H5. cbn [mbind result_bind]. rewrite H6. cbn [mbind result_bind].
    reflexivity. }
  split; [reflexivity |]. split.
  { unfold profile.DAEMON_PID_FILE_TEMPLATE, profile.DAEMON_DIR.
    split_templates. rewrite H7. reflexivity. }
  split.
  { unfold profile.DAEMON_PID_FILE_TEMPLATE, profile.DAEMON_DIR.
    split_templates. rewrite H7. reflexivity. }
  split.
  - intros Ht He. unfold profile.DAEMON_PID_FILE_TEMPLATE, profile.DAEMON_DIR.
    change "aiida-{}.pid" with ("aiida-" ++ "{}" ++ ".pid").
    rewrite os_path_join_template by done.
    unfold dir_head, profile.CONFIG_DIR. rewrite Ht, He. cbn [negb orb].
    by rewrite !append_assoc.
  - intros q Hq. unfold profile.filepaths. by rewrite Hq.
Qed.

(** C6.  A profile constructed with name [n] has [is_test_profile] equal
    to [n.startswith("test_")], that is, true exactly when [n] is [test_]
    followed by some text.  The flag is stored by the constructor: no
    assignment is accepted and it is the same after any sequence of
    accesses. *)
Theorem is_test_profile_prefix (n : string) (d : gmap string pyval) :
  ∃ p,
    profile.Profile_init n (PDict d) = Ok p
    ∧ profile.name p = n
    ∧ profile.is_test_profile p = startswith n "test_"
    ∧ (profile.is_test_profile p = true ↔ ∃ rest, n = "test_" ++ rest)
    ∧ (∀ a v, profile.setattr p a v = Raise AttributeError)
    ∧ (∀ xs, profile.is_test_profile (profile.run p xs)
             = profile.is_test_profile p).
Proof.
  eexists. split; [reflexivity |].
  repeat split; try done.
  - intros H. by apply startswith_spec.
  - intros H. by apply startswith_spec.
  - intros xs. by rewrite run_unchanged.
Qed.

(** C7.  When the configuration holds the string [u] under the UUID key,
    [uuid] is [u] and [rmq_prefix] is [aiida-] followed by [u]. *)
Theorem rmq_prefix_uuid (p : Profile) (u : string) :
  _config p !! PROFILE_UUID_KEY = Some (PStr u) →
  profile.uuid p = Ok (PStr u)
  ∧ profile.rmq_prefix p = Ok ("aiida-" ++ u).
Proof.
  intros H.
  assert (profile.uuid p = Ok (PStr u)) as Hu.
  { unfold profile.uuid, profile.config, getitem. by rewrite H. }
  split; [done |].
  unfold profile.rmq_prefix. rewrite Hu. cbn [mbind result_bind format_value].
  apply format_rmq_prefix.
Qed.

(** C8.  A profile is constructed over any configuration dictionary,
    with or without the user email key.  Reading [default_user_email]
    returns the value under the key when there is one, and otherwise raises
    [ConfigurationError] with the message
    [No '<key>' key found in the AiiDA configuration file]. *)
Theorem default_user_email_lazy (n : string) (d : gmap string pyval) :
  ∃ p,
    profile.Profile_init n (PDict d) = Ok p
    ∧ (d !! DEFAULT_USER_CONFIG_FIELD = None →
       ∃ msg,
         profile.default_user_email p = Raise (ConfigurationError msg)
         ∧ msg = "No '" ++ DEFAULT_USER_CONFIG_FIELD
                 ++ "' key found in the AiiDA configuration file"
         ∧ contains msg DEFAULT_USER_CONFIG_FIELD)
    ∧ (∀ v, d !! DEFAULT_USER_CONFIG_FIELD = Some v →
            profile.default_user_email p = Ok v).
Proof.
  eexists. split; [reflexivity |].
  unfold profile.default_user_email, profile.config, getitem, try_except.
  cbn [_config]. split.
  - intros H. rewrite H. cbn [is_KeyError mbind result_bind].
    rewrite format_no_key_found. cbn [mbind result_bind].
    eexists. split; [reflexivity |]. split; [reflexivity |].
    apply contains_middle.
  - intros v H. by rewrite H.
Qed.

(** C9.  When the configuration has no entry under the UUID key, [uuid]
    raises the [KeyError] of the lookup itself, for that key, and not a
    [ConfigurationError]; [rmq_prefix] raises the same [KeyError]. *)
Theorem uuid_missing_key_propagates (p : Profile) :
  _config p !! PROFILE_UUID_KEY = None →
  profile.uuid p = Raise (KeyError PROFILE_UUID_KEY)
  ∧ (∀ msg, profile.uuid p ≠ Raise (ConfigurationError msg))
  ∧ profile.rmq_prefix p = Raise (KeyError PROFILE_UUID_KEY).
Proof.
  intros H.
  assert (profile.uuid p = Raise (KeyError PROFILE_UUID_KEY)) as Hu.
  { unfold profile.uuid, profile.config, getitem. by rewrite H. }
  split; [done |]. split.
  - intros msg. by rewrite Hu.
  - unfold profile.rmq_prefix. by rewrite Hu.
Qed.

End profile_properties.

(** ** The NWChem translator *)

Section nwchem_properties.

(** A comprehension returns a list exactly when its body returns for every
    element, and the results are then in the order of the elements. *)
Lemma for_each_Forall2 {A B : Type} (f : A → result B) (xs : list A) :
  (∀ x, x ∈ xs → ∃ y, f x = Ok y) →
  ∃ ys, for_each f xs = Ok ys ∧ Forall2 (λ x y, f x = Ok y) xs ys.
Proof.
  induction xs as [|x xs IH]; intros H.
  - exists []. by split.
  - destruct (H x) as [y Hy]; [by left |].
    destruct IH as (ys & Hys & Hall); [intros z Hz; apply H; by right |].
    exists (y :: ys). split; [| by constructor].
    cbn [for_each]. rewrite Hy. cbn [mbind result_bind]. by rewrite Hys.
Qed.

(** The body of the two comprehensions, for the entry [field]. *)
Lemma basis_set_entry (dictionary bs sub : gmap string pyval)
    (x field : string) (v : pyval) :
  dictionary !! "basis_set" = Some (PDict bs) →
  bs !! x = Some (PDict sub) → sub !! field = Some v →
  (basis_set ← getitem (PDict dictionary) "basis_set";
   entry ← getitem basis_set x;
   getitem entry field) = Ok v.
Proof.
  intros Hd Hx Hf. unfold getitem. rewrite Hd. cbn [mbind result_bind].
  rewrite Hx. cbn [mbind result_bind]. by rewrite Hf.
Qed.

Lemma has_key_lookup (d : gmap string pyval) (k : string) :
  has_key d k = bool_decide (d !! k ≠ None).
Proof.
  unfold has_key. apply bool_decide_ext. rewrite <- not_eq_None_Some. done.
Qed.

Lemma get_atom_type_symbol_present (calc : Calculation) (bs : gmap string pyval) :
  output_dict calc !! "basis_set" = Some (PDict bs) →
  nwcpymatgen.get_atom_type_symbol calc = Ok (Some (sorted (map_to_list bs).*1)).
Proof.
  intros H. unfold nwcpymatgen.get_atom_type_symbol. cbn zeta.
  rewrite has_key_lookup, H, bool_decide_eq_true_2 by done.
  unfold getitem. by rewrite H.
Qed.

(** The comprehension over the symbols, for the entry [field]. *)
Lemma entries_of_symbols (dictionary bs : gmap string pyval) (field : string)
    (symbols : list string) :
  dictionary !! "basis_set" = Some (PDict bs) →
  (∀ x, x ∈ symbols → ∃ sub v, bs !! x = Some (PDict sub) ∧ sub !! field = Some v) →
  ∃ l,
    for_each (λ x, basis_set ← getitem (PDict dictionary) "basis_set";
                   entry ← getitem basis_set x;
                   getitem entry field) symbols = Ok l
    ∧ length l = length symbols
    ∧ ∀ i x, symbols !! i = Some x →
        ∃ sub, bs !! x = Some (PDict sub) ∧ sub !! field = l !! i.
Proof.
  intros Hd Hwf.
  destruct (for_each_Forall2
    (λ x, basis_set ← getitem (PDict dictionary) "basis_set";
          entry ← getitem basis_set x; getitem entry field) symbols)
    as (l & Hl & Hall).
  { intros x Hx. destruct (Hwf x Hx) as (sub & v & Hx' & Hv).
    exists v. by apply (basis_set_entry _ bs sub). }
  exists l. split; [done |]. split; [symmetry; by eapply Forall2_length |].
  intros i x Hi.
  destruct (Hwf x) as (sub & v & Hx & Hv); [by eapply list_elem_of_lookup_2 |].
  exists sub. split; [done |].
  destruct (Forall2_lookup_l _ _ _ _ _ Hall Hi) as (y & Hy & Hf).
  cbn beta in Hf.
  rewrite (basis_set_entry _ bs sub x field v Hd Hx Hv) in Hf.
  rewrite Hy, Hv. congruence.
Qed.

(** C10, amended.  Without a [basis_set] entry in the output dictionary
    the three functions return [None].  With a [basis_set] mapping,
    [get_atom_type_symbol] returns its keys sorted, each once.  When every
    value of the mapping is a sub-mapping with a [description] entry,
    [get_atom_type_basisset] returns a list as long as the list of symbols
    whose element at each index is the [description] entry of the
    sub-mapping of the symbol at that index; and likewise
    [get_atom_type_valence_configuration] when every value is a sub-mapping
    with a [types] entry.  Neither function asks for the other's entry. *)
Theorem atom_type_lists (calc : Calculation) :
  (output_dict calc !! "basis_set" = None →
   nwcpymatgen.get_atom_type_symbol calc = Ok None
   ∧ nwcpymatgen.get_atom_type_basisset calc = Ok None
   ∧ nwcpymatgen.get_atom_type_valence_configuration calc = Ok None)
  ∧ (∀ bs, output_dict calc !! "basis_set" = Some (PDict bs) →
     ∃ symbols,
       nwcpymatgen.get_atom_type_symbol calc = Ok (Some symbols)
       ∧ symbols = sorted (map_to_list bs).*1
       ∧ Sorted str_le symbols
       ∧ NoDup symbols
       ∧ (∀ x, x ∈ symbols ↔ is_Some (bs !! x))
       ∧ ((∀ x e, bs !! x = Some e →
             ∃ sub desc, e = PDict sub ∧ sub !! "description" = Some desc) →
          ∃ descs,
            nwcpymatgen.get_atom_type_basisset calc = Ok (Some descs)
            ∧ length descs = length symbols
            ∧ ∀ i x, symbols !! i = Some x →
                ∃ sub, bs !! x = Some (PDict sub)
                  ∧ sub !! "description" = descs !! i)
       ∧ ((∀ x e, bs !! x = Some e →
             ∃ sub ty, e = PDict sub ∧ sub !! "types" = Some ty) →
          ∃ tys,
            nwcpymatgen.get_atom_type_valence_configuration calc
              = Ok (Some tys)
            ∧ length tys = length symbols
            ∧ ∀ i x, symbols !! i = Some x →
                ∃ sub, bs !! x = Some (PDict sub)
                  ∧ sub !! "types" = tys !! i)).
Proof.
  split.
  - intros H.
    unfold nwcpymatgen.get_atom_type_basisset,
      nwcpymatgen.get_atom_type_valence_configuration,
      nwcpymatgen.get_atom_type_symbol.
    cbn zeta. by rewrite has_key_lookup, H, bool_decide_eq_false_2 by tauto.
  - intros bs H.
    destruct (sorted_keys bs) as (Hsorted & Hnodup & Hmem). cbn zeta in *.
    set (symbols := sorted (map_to_list bs).*1) in *.
    exists symbols. split; [by apply get_atom_type_symbol_present |].
    do 4 (split; [done |]).
    split.
    + intros Hwf.
      destruct (entries_of_symbols (output_dict calc) bs "description" symbols)
        as (descs & Hdescs & Hdlen & Hdi); [done | |].
      { intros x Hx. apply Hmem in Hx as [e He].
        destruct (Hwf x e He) as (sub & desc & -> & Hdesc). eauto. }
      exists descs.
      unfold nwcpymatgen.get_atom_type_basisset.
      cbn zeta. rewrite has_key_lookup, H, bool_decide_eq_true_2 by done.
      rewrite (get_atom_type_symbol_present calc bs H).
      cbn [negb mbind result_bind nwcpymatgen.iterate]. fold symbols.
      rewrite Hdescs. cbn [mbind result_bind].
      split; [done |]. split; [done | exact Hdi].
    + intros Hwf.
      destruct (entries_of_symbols (output_dict calc) bs "types" symbols)
        as (tys & Htys & Htlen & Hti); [done | |].
      { intros x Hx. apply Hmem in Hx as [e He].
        destruct (Hwf x e He) as (sub & ty & -> & Hty). eauto. }
      exists tys.
      unfold nwcpymatgen.get_atom_type_valence_configuration.
      cbn zeta. rewrite has_key_lookup, H, bool_decide_eq_true_2 by done.
      rewrite (get_atom_type_symbol_present calc bs H).
      cbn [negb mbind result_bind nwcpymatgen.iterate]. fold symbols.
      rewrite Htys. cbn [mbind result_bind].
      split; [done |]. split; [done | exact Hti].
Qed.

End nwchem_properties.

(** * The properties at concrete inputs *)

Import fixtures.

Example get_profile_default :
  profile.get_profile plain_world None = Ok default_profile
  ∧ profile.get_profile override_world None = Ok test_profile
  ∧ profile.get_profile plain_world (Some "test_abc") = Ok test_profile.
Proof. repeat split; vm_compute; reflexivity. Qed.

Example is_test_profile_examples :
  (∃ p, profile.Profile_init "test_abc" (PDict ∅) = Ok p
        ∧ profile.is_test_profile p = true)
  ∧ (∃ p, profile.Profile_init "production" (PDict ∅) = Ok p
          ∧ profile.is_test_profile p = false).
Proof. split; eexists; split; reflexivity. Qed.

Example filepaths_default :
  (fp ← profile.filepaths default_profile;
   daemon ← getitem fp "daemon";
   getitem daemon "pid") = Ok (PStr "~/.aiida/daemon/aiida-default.pid")
  ∧ (fp ← profile.filepaths default_profile;
     circus ← getitem fp "circus";
     socket ← getitem circus "socket";
     getitem socket "controller") = Ok (PStr "circus.c.sock").
Proof. split; vm_compute; reflexivity. Qed.

Example atom_type_water :
  nwcpymatgen.get_atom_type_symbol water_calc = Ok (Some ["H"; "O"]%list)
  ∧ nwcpymatgen.get_atom_type_basisset water_calc
    = Ok (Some [PStr "sto-3g"; PStr "6-31g"]%list)
  ∧ nwcpymatgen.get_atom_type_valence_configuration water_calc
    = Ok (Some [PStr "2s"; PStr "3s2p"]%list).
Proof. repeat split; vm_compute; reflexivity. Qed.

(** C1, as stated, fails when the override is set to the empty string:
    [or] takes the empty string for false, and the default name is
    returned in its place. *)
Lemma override_empty_string_ignored :
  AIIDADB_PROFILE empty_override_world = Some EmptyString
  ∧ profile.get_current_profile_name empty_override_world = Ok "default"
  ∧ profile.get_current_profile_name empty_override_world ≠ Ok EmptyString.
Proof. split; [reflexivity |]. split; [vm_compute; reflexivity | discriminate]. Qed.

Lemma current_profile_name_resolution_witness :
  profile.get_current_profile_name override_world = Ok "test_abc"
  ∧ profile.get_current_profile_name plain_world = Ok "default".
Proof.
  split.
  - apply (proj1 (current_profile_name_resolution override_world) "test_abc");
      [reflexivity | discriminate].
  - rewrite (proj2 (proj2 (current_profile_name_resolution plain_world)
                             (or_introl eq_refl)) (PDict store) eq_refl).
    vm_compute. reflexivity.
Defined.

Lemma unknown_profile_name_rejected_witness :
  ∃ msg,
    profile.get_profile_config plain_world (Some "nonexistent")
      = Raise (ProfileConfigurationError msg)
    ∧ profile.get_profile plain_world (Some "nonexistent")
      = Raise (ProfileConfigurationError msg)
    ∧ msg = "invalid profile name " ++ quote ++ "nonexistent" ++ quote
    ∧ contains msg "nonexistent".
Proof.
  apply (unknown_profile_name_rejected plain_world store store_profiles
           "nonexistent"); vm_compute; reflexivity.
Defined.


Lemma get_profile_name_witness :
  ∃ p, profile.get_profile plain_world (Some "default") = Ok p
       ∧ profile.name p = "default".
Proof.
  destruct (get_profile_name plain_world store store_profiles
              default_profile_config "default")
    as (p & Hp & Hn & _); [vm_compute; reflexivity ..|].
  exists p. split; [exact Hp | exact Hn].
Defined.

Lemma filepaths_daemon_pid_witness :
  ∃ fp daemon,
    profile.filepaths default_profile = Ok fp
    ∧ getitem fp "daemon" = Ok daemon
    ∧ getitem daemon "pid" = Ok (PStr "~/.aiida/daemon/aiida-default.pid").
Proof.
  destruct (filepaths_daemon_pid (stp := aiida_setup) default_profile)
    as (fp & daemon & H1 & H2 & H3 & H4 & _); [reflexivity |].
  exists fp, daemon. split; [exact H1 |]. split; [exact H2 |].
  rewrite H3. reflexivity.
Defined.

Lemma rmq_prefix_uuid_witness :
  profile.rmq_prefix default_profile
  = Ok "aiida-9f3a1c2e5b7d4e0fa1b2c3d4e5f60718".
Proof.
  apply (rmq_prefix_uuid (stp := aiida_setup) default_profile
           "9f3a1c2e5b7d4e0fa1b2c3d4e5f60718").
  vm_compute. reflexivity.
Defined.

Lemma default_user_email_lazy_witness :
  (∃ p msg, profile.Profile_init "test_abc" (PDict bare_profile_config) = Ok p
            ∧ profile.default_user_email p = Raise (ConfigurationError msg)
            ∧ contains msg "default_user_email")
  ∧ (∃ p, profile.Profile_init "default" (PDict default_profile_config) = Ok p
          ∧ profile.default_user_email p = Ok (PStr "user@example.org")).
Proof.
  split.
  - destruct (default_user_email_lazy (stp := aiida_setup) "test_abc"
                bare_profile_config) as (p & Hp & Hmissing & _).
    destruct Hmissing as (msg & Hmsg & _ & Hin); [vm_compute; reflexivity |].
    exists p, msg. split; [exact Hp |]. split; [exact Hmsg | exact Hin].
  - destruct (default_user_email_lazy (stp := aiida_setup) "default"
                default_profile_config) as (p & Hp & _ & Hpresent).
    exists p. split; [exact Hp |].
    apply Hpresent. vm_compute. reflexivity.
Defined.

Lemma uuid_missing_key_propagates_witness :
  profile.uuid test_profile = Raise (KeyError "PROFILE_UUID")
  ∧ profile.rmq_prefix test_profile = Raise (KeyError "PROFILE_UUID").
Proof.
  destruct (uuid_missing_key_propagates (stp := aiida_setup) test_profile)
    as (H1 & _ & H2); [vm_compute; reflexivity |].
  split; [exact H1 | exact H2].
Defined.

Lemma water_basis_set_entries (x : string) (e : pyval) :
  water_basis_set !! x = Some e →
  ∃ sub desc ty, e = PDict sub
    ∧ sub !! "description" = Some desc ∧ sub !! "types" = Some ty.
Proof.
  unfold water_basis_set. cbn [list_to_map foldr uncurry]. intros H.
  apply lookup_insert_Some in H as [[_ <-] | [_ H]].
  { eexists _, _, _. split; [reflexivity |]. split; vm_compute; reflexivity. }
  apply lookup_insert_Some in H as [[_ <-] | [_ H]].
  { eexists _, _, _. split; [reflexivity |]. split; vm_compute; reflexivity. }
  by rewrite lookup_empty in H.
Defined.

Lemma one_entry_field (k field : string) (sub : gmap string pyval) (v : pyval) :
  sub !! field = Some v →
  ∀ x e,
    (list_to_map [(k, PDict sub)] : gmap string pyval) !! x = Some e →
    ∃ sub' v', e = PDict sub' ∧ sub' !! field = Some v'.
Proof.
  intros Hv x e. cbn [list_to_map foldr uncurry]. intros H.
  apply lookup_insert_Some in H as [[_ <-] | [_ H]]; [eauto |].
  by rewrite lookup_empty in H.
Defined.

Lemma atom_type_lists_witness :
  (nwcpymatgen.get_atom_type_symbol bare_calc = Ok None
   ∧ nwcpymatgen.get_atom_type_basisset bare_calc = Ok None
   ∧ nwcpymatgen.get_atom_type_valence_configuration bare_calc = Ok None)
  ∧ (∃ symbols descs tys,
      symbols = ["H"; "O"]%list
      ∧ nwcpymatgen.get_atom_type_symbol water_calc = Ok (Some symbols)
      ∧ nwcpymatgen.get_atom_type_basisset water_calc = Ok (Some descs)
      ∧ nwcpymatgen.get_atom_type_valence_configuration water_calc
        = Ok (Some tys)
      ∧ length descs = 2 ∧ length tys = 2)
  ∧ (∃ tys,
      nwcpymatgen.get_atom_type_valence_configuration partial_calc
        = Ok (Some tys)
      ∧ length tys = 1)
  ∧ (∃ descs,
      nwcpymatgen.get_atom_type_basisset untyped_calc = Ok (Some descs)
      ∧ length descs = 1).
Proof.
  split; [apply (proj1 (atom_type_lists bare_calc)); vm_compute; reflexivity |].
  split; [| split].
  - destruct (proj2 (atom_type_lists water_calc) water_basis_set)
      as (symbols & Hs & Heq & _ & _ & _ & Hdesc & Hty);
      [vm_compute; reflexivity |].
    destruct Hdesc as (descs & Hd & Hdl & _).
    { intros x e He.
      destruct (water_basis_set_entries x e He) as (sub & d & t & -> & Hx & _).
      eauto. }
    destruct Hty as (tys & Ht & Htl & _).
    { intros x e He.
      destruct (water_basis_set_entries x e He) as (sub & d & t & -> & _ & Hx).
      eauto. }
    assert (symbols = ["H"; "O"]%list) as Hsym
      by (rewrite Heq; vm_compute; reflexivity).
    exists symbols, descs, tys. split; [exact Hsym |].
    split; [exact Hs |]. split; [exact Hd |]. split; [exact Ht |].
    rewrite Hdl, Htl, Hsym. split; reflexivity.
  - destruct (proj2 (atom_type_lists partial_calc) partial_basis_set)
      as (symbols & _ & Heq & _ & _ & _ & _ & Hty);
      [vm_compute; reflexivity |].
    destruct Hty as (tys & Ht & Htl & _).
    { apply (one_entry_field "H" "types" _ (PStr "2s")).
      vm_compute. reflexivity. }
    exists tys. split; [exact Ht |]. rewrite Htl, Heq. vm_compute. reflexivity.
  - destruct (proj2 (atom_type_lists untyped_calc) untyped_basis_set)
      as (symbols & _ & Heq & _ & _ & _ & Hdesc & _);
      [vm_compute; reflexivity |].
    destruct Hdesc as (descs & Hd & Hdl & _).
    { apply (one_entry_field "H" "description" _ (PStr "sto-3g")).
      vm_compute. reflexivity. }
    exists descs. split; [exact Hd |]. rewrite Hdl, Heq. vm_compute. reflexivity.
Defined.

(** C10, as stated, fails for a [basis_set] mapping with an entry that
    lacks [description]: the list of symbols is returned, and the
    comprehension of [get_atom_type_basisset] raises the [KeyError] of the
    lookup. *)
Lemma basisset_missing_description :
  output_dict partial_calc !! "basis_set" = Some (PDict partial_basis_set)
  ∧ nwcpymatgen.get_atom_type_symbol partial_calc = Ok (Some ["H"]%list)
  ∧ nwcpymatgen.get_atom_type_basisset partial_calc
    = Raise (KeyError "description")
  ∧ (∀ l, nwcpymatgen.get_atom_type_basisset partial_calc ≠ Ok (Some l)).
Proof.
  assert (nwcpymatgen.get_atom_type_basisset partial_calc
          = Raise (KeyError "description")) as H
    by (vm_compute; reflexivity).
  split; [vm_compute; reflexivity |]. split; [vm_compute; reflexivity |].
  split; [exact H |]. intros l. rewrite H. discriminate.
Qed.

(** * Further properties of the profile accessor *)

Section profile_lookup.

#[local] Arguments append !s1 s2 / : simpl nomatch.

Ltac unfold_lookup :=
  unfold profile.get_profile, profile.get_profile_config,
    profile.name_or_current, profile.Profile_init, profile.AttributeDict,
    try_except, getitem;
  cbn [mbind result_bind mret result_ret].

(** Passing no name is passing the name [name_or_current] gives. *)
Lemma get_profile_config_resolved (w : World) (arg : option string) (n : string) :
  profile.name_or_current w arg = Ok n →
  profile.get_profile_config w arg = profile.get_profile_config w (Some n)
  ∧ profile.get_profile w arg = profile.get_profile w (Some n).
Proof.
  intros H. unfold profile.get_profile, profile.get_profile_config.
  by rewrite H.
Qed.

(** X1.  With the store loaded, [get_profile_config] returns a value for
    a name exactly when the store has a [profiles] mapping that holds the
    name, and the value is the entry under the name. *)
Theorem get_profile_config_lookup (w : World) (store : gmap string pyval)
    (n : string) (v : pyval) :
  get_config w = Ok (PDict store) →
  profile.get_profile_config w (Some n) = Ok v
  ↔ ∃ profiles, store !! "profiles" = Some (PDict profiles)
                ∧ profiles !! n = Some v.
Proof.
  intros Hc. unfold_lookup. rewrite Hc. cbn [mbind result_bind].
  destruct (store !! "profiles") as [[| | | |profiles]|] eqn:Hs;
    cbn [mbind result_bind is_KeyError].
  1-4: split; [done | intros (ps & Hps & _); congruence].
  - destruct (profiles !! n) as [v'|] eqn:Hn; cbn [is_KeyError mbind result_bind].
    + split; [intros [= <-]; by exists profiles | intros (ps & [= <-] & Hv); congruence].
    + rewrite format_invalid_profile_name. cbn [mbind result_bind].
      split; [done | intros (ps & [= <-] & Hv); congruence].
  - rewrite format_invalid_profile_name. cbn [mbind result_bind].
    split; [done | intros (ps & Hps & _); congruence].
Qed.

(** X2.  A loaded store without a [profiles] key is reported like an
    unknown name: the [KeyError] of the first subscript is caught by the
    same handler, and [ProfileConfigurationError] with the requested name is
    raised. *)
Theorem missing_profiles_table_rejected (w : World) (store : gmap string pyval)
    (n : string) :
  get_config w = Ok (PDict store) →
  store !! "profiles" = None →
  profile.get_profile_config w (Some n)
    = Raise (ProfileConfigurationError
               ("invalid profile name " ++ quote ++ n ++ quote))
  ∧ profile.get_profile w (Some n)
    = Raise (ProfileConfigurationError
               ("invalid profile name " ++ quote ++ n ++ quote)).
Proof.
  intros Hc Hs.
  assert (profile.get_profile_config w (Some n)
          = Raise (ProfileConfigurationError
                     ("invalid profile name " ++ quote ++ n ++ quote))) as H.
  { unfold_lookup. rewrite Hc. cbn [mbind result_bind]. rewrite Hs.
    cbn [mbind result_bind is_KeyError].
    by rewrite format_invalid_profile_name. }
  split; [done |].
  unfold profile.get_profile, profile.name_or_current.
  cbn [mbind result_bind]. by rewrite H.
Qed.

(** X3.  Only [MissingConfigurationError] is replaced by the clarifying
    message: any other exception of the loader leaves [get_profile_config]
    and [get_profile] as it was raised. *)
Theorem loader_error_propagates (w : World) (e : exception) (n : string) :
  get_config w = Raise e →
  is_MissingConfigurationError e = false →
  profile.get_profile_config w (Some n) = Raise e
  ∧ profile.get_profile w (Some n) = Raise e.
Proof.
  intros Hc He.
  assert (profile.get_profile_config w (Some n) = Raise e) as H.
  { unfold_lookup. rewrite Hc, He. done. }
  split; [done |].
  unfold profile.get_profile, profile.name_or_current.
  cbn [mbind result_bind]. by rewrite H.
Qed.

(** X4.  Only [KeyError] is turned into [ProfileConfigurationError]: when
    the [profiles] entry of the store is no mapping, the [TypeError] of
    subscripting it with the name leaves [get_profile_config] and
    [get_profile]. *)
Theorem profiles_not_a_mapping (w : World) (store : gmap string pyval)
    (v : pyval) (n : string) :
  get_config w = Ok (PDict store) →
  store !! "profiles" = Some v →
  (∀ profiles, v ≠ PDict profiles) →
  profile.get_profile_config w (Some n) = Raise TypeError
  ∧ profile.get_profile w (Some n) = Raise TypeError.
Proof.
  intros Hc Hs Hv.
  assert (profile.get_profile_config w (Some n) = Raise TypeError) as H.
  { unfold_lookup. rewrite Hc. cbn [mbind result_bind]. rewrite Hs.
    cbn [mbind result_bind]. destruct v; try done. by destruct (Hv d). }
  split; [done |].
  unfold profile.get_profile, profile.name_or_current.
  cbn [mbind result_bind]. by rewrite H.
Qed.

(** X5.  With the override set to a non-empty name, calling
    [get_profile_config] or [get_profile] without a name is calling it with
    the override, whatever the store and its default are. *)
Theorem override_selects_profile (w : World) (n : string) :
  AIIDADB_PROFILE w = Some n → n ≠ EmptyString →
  profile.get_profile_config w None = profile.get_profile_config w (Some n)
  ∧ profile.get_profile w None = profile.get_profile w (Some n).
Proof.
  intros Ho Hn. apply get_profile_config_resolved.
  unfold profile.name_or_current, profile.get_current_profile_name, py_or.
  rewrite Ho. by destruct n.
Qed.

(** X6.  [get_profile] follows [get_profile_config] for every argument:
    an exception of [get_profile_config] is the exception of [get_profile],
    and when [get_profile_config] returns a mapping, [get_profile] returns
    the profile over that mapping, named by the name passed or, without one,
    by the current profile name, with the test flag of that name. *)
Theorem get_profile_follows_config (w : World) (arg : option string) :
  (∀ e, profile.get_profile_config w arg = Raise e →
        profile.get_profile w arg = Raise e)
  ∧ (∀ d, profile.get_profile_config w arg = Ok (PDict d) →
     ∃ n,
       (arg = Some n
        ∨ (arg = None ∧ profile.get_current_profile_name w = Ok n))
       ∧ profile.get_profile w arg
         = Ok {| _name := n; _config := d;
                 _test_profile := startswith n "test_" |}).
Proof.
  destruct (profile.name_or_current w arg) as [n|e0] eqn:Hn.
  - destruct (get_profile_config_resolved w arg n Hn) as [-> ->].
    split.
    + intros e He. unfold profile.get_profile, profile.name_or_current.
      cbn [mbind result_bind]. by rewrite He.
    + intros d Hd. exists n. split.
      * destruct arg as [a|]; cbn in Hn; [left; congruence | by right].
      * unfold profile.get_profile, profile.name_or_current.
        cbn [mbind result_bind]. by rewrite Hd.
  - unfold profile.get_profile_config, profile.get_profile. rewrite Hn.
    cbn [mbind result_bind].
    split; [by intros e [= <-] | intros d Hd; discriminate Hd].
Qed.

End profile_lookup.

(** * Further properties of the file paths and the RMQ prefix *)

Section profile_paths.
Context {stp : Setup}.

#[local] Arguments append !s1 s2 / : simpl nomatch.

Lemma length_append (a b : string) :
  String.length (a ++ b) = String.length a + String.length b.
Proof. induction a as [|x a IH]; simpl; [done | by rewrite IH]. Qed.

Lemma append_cancel_l (a b c : string) : a ++ b = a ++ c → b = c.
Proof. induction a as [|x a IH]; simpl; [done |]. intros [= H]. by apply IH. Qed.

Lemma append_cancel_r (a b c : string) : a ++ c = b ++ c → a = b.
Proof.
  revert b. induction a as [|x a IH]; intros [|y b] H; simpl in H.
  - done.
  - apply (f_equal String.length) in H. simpl in H.
    rewrite length_append in H. lia.
  - apply (f_equal String.length) in H. simpl in H.
    rewrite length_append in H. lia.
  - injection H as -> H. f_equal. by apply IH.
Qed.

Ltac split_names :=
  change "circus-{}.log" with ("circus-" ++ "{}" ++ ".log");
  change "circus-{}.pid" with ("circus-" ++ "{}" ++ ".pid");
  change "circus-{}.port" with ("circus-" ++ "{}" ++ ".port");
  change "circus-{}.sockets" with ("circus-" ++ "{}" ++ ".sockets");
  change "aiida-{}.log" with ("aiida-" ++ "{}" ++ ".log");
  change "aiida-{}.pid" with ("aiida-" ++ "{}" ++ ".pid").

Ltac formatted sub stem ext n H :=
  destruct (format_file_template sub stem ext n) as [H _];
  [done | reflexivity | reflexivity | reflexivity | reflexivity | reflexivity
  | reflexivity | reflexivity |].

(** X7.  If the configuration directory holds no brace, [filepaths]
    never raises and returns the two groups [circus] and [daemon] with every
    templated path made of the directory, the sub-directory, the file stem,
    the profile name and the extension; the three socket names
    [controller], [pubsub] and [stats] are the same for every profile. *)
Theorem filepaths_layout (p : Profile) :
  no_brace AIIDA_CONFIG_FOLDER = true →
  profile.filepaths p = Ok (layout (dir_head AIIDA_CONFIG_FOLDER) (profile.name p)).
Proof.
  intros Hd. set (n := profile.name p).
  formatted "daemon/log" "circus-" ".log" n H1.
  formatted "daemon" "circus-" ".pid" n H2.
  formatted "daemon" "circus-" ".port" n H3.
  formatted "daemon" "circus-" ".sockets" n H4.
  formatted "daemon/log" "aiida-" ".log" n H5.
  formatted "daemon" "aiida-" ".pid" n H6.
  cbn zeta in *.
  unfold profile.filepaths. fold n.
  unfold profile.CIRCUS_LOG_FILE_TEMPLATE, profile.CIRCUS_PID_FILE_TEMPLATE,
    profile.CIRCUS_PORT_FILE_TEMPLATE, profile.CIRCUS_SOCKET_FILE_TEMPATE,
    profile.DAEMON_LOG_FILE_TEMPLATE, profile.DAEMON_PID_FILE_TEMPLATE,
    profile.DAEMON_DIR, profile.DAEMON_LOG_DIR.
  split_names.
  rewrite H1. cbn [mbind result_bind]. rewrite H2. cbn [mbind result_bind].
  rewrite H3. cbn [mbind result_bind]. rewrite H4. cbn [mbind result_bind].
  rewrite H5. cbn [mbind result_bind]. rewrite H6. cbn [mbind result_bind].
  reflexivity.
Qed.

Lemma layout_daemon_pid (d n : string) :
  (daemon ← getitem (layout d n) "daemon"; getitem daemon "pid")
  = Ok (PStr (d ++ "daemon/aiida-" ++ n ++ ".pid")).
Proof. reflexivity. Qed.

(** Two texts that differ only in the name between the same head, stem
    and extension are equal only for equal names. *)
Lemma path_text_inj (d stem ext n n' : string) (r r' : result pyval) :
  r = Ok (PStr (d ++ stem ++ n ++ ext)) →
  r' = Ok (PStr (d ++ stem ++ n' ++ ext)) →
  r = r' → n = n'.
Proof.
  intros -> -> E. injection E as E.
  apply append_cancel_l in E. apply append_cancel_l in E.
  by apply append_cancel_r in E.
Qed.

Lemma layout_templated_inj (d n n' : string) (ks : list string) :
  ks ∈ templated_entries →
  path_at (layout d n) ks = path_at (layout d n') ks → n = n'.
Proof.
  unfold templated_entries. intros H.
  apply elem_of_cons in H as [-> | H];
    [exact (path_text_inj d "daemon/log/circus-" ".log" n n' _ _ eq_refl eq_refl) |].
  apply elem_of_cons in H as [-> | H];
    [exact (path_text_inj d "daemon/circus-" ".pid" n n' _ _ eq_refl eq_refl) |].
  apply elem_of_cons in H as [-> | H];
    [exact (path_text_inj d "daemon/circus-" ".port" n n' _ _ eq_refl eq_refl) |].
  apply elem_of_cons in H as [-> | H];
    [exact (path_text_inj d "daemon/circus-" ".sockets" n n' _ _ eq_refl eq_refl) |].
  apply elem_of_cons in H as [-> | H];
    [exact (path_text_inj d "daemon/log/aiida-" ".log" n n' _ _ eq_refl eq_refl) |].
  apply elem_of_cons in H as [-> | H];
    [exact (path_text_inj d "daemon/aiida-" ".pid" n n' _ _ eq_refl eq_refl) |].
  by apply elem_of_nil in H.
Qed.

Lemma layout_fixed (d n n' : string) (ks : list string) :
  ks ∈ fixed_entries →
  path_at (layout d n) ks = path_at (layout d n') ks.
Proof.
  unfold fixed_entries. intros H.
  repeat (apply elem_of_cons in H as [-> | H]; [reflexivity |]).
  by apply elem_of_nil in H.
Qed.

(** X8.  If the configuration directory holds no brace, each of the six
    templated entries of [filepaths] determines the profile name: under any
    of these keys, profiles with different names have different strings.
    The three fixed socket names are the same for all profiles.  Hence two
    profiles have equal [filepaths] exactly when they have the same name.
    The strings are compared as texts. *)
Theorem templated_paths_injective (p q : Profile) :
  no_brace AIIDA_CONFIG_FOLDER = true →
  (∀ ks, ks ∈ templated_entries →
     (fp ← profile.filepaths p; path_at fp ks)
     = (fp ← profile.filepaths q; path_at fp ks) →
     profile.name p = profile.name q)
  ∧ (∀ ks, ks ∈ fixed_entries →
       (fp ← profile.filepaths p; path_at fp ks)
       = (fp ← profile.filepaths q; path_at fp ks))
  ∧ (profile.filepaths p = profile.filepaths q
     ↔ profile.name p = profile.name q).
Proof.
  intros Hd. rewrite !filepaths_layout by done. cbn [mbind result_bind].
  split; [| split].
  - intros ks Hks. by apply layout_templated_inj.
  - intros ks Hks. by apply layout_fixed.
  - split.
    + intros H.
      apply (layout_templated_inj (dir_head AIIDA_CONFIG_FOLDER) _ _
               ["daemon"; "pid"]%list).
      * eapply (list_elem_of_lookup_2 _ 5). reflexivity.
      * apply (f_equal (λ r, fp ← r; path_at fp ["daemon"; "pid"]%list)) in H.
        exact H.
    + intros H. by rewrite H.
Qed.

(** X9.  Profiles whose configurations hold different UUID strings have
    different RMQ prefixes. *)
Theorem rmq_prefix_injective (p q : Profile) (u u' : string) :
  _config p !! PROFILE_UUID_KEY = Some (PStr u) →
  _config q !! PROFILE_UUID_KEY = Some (PStr u') →
  profile.rmq_prefix p = profile.rmq_prefix q → u = u'.
Proof.
  intros Hp Hq.
  unfold profile.rmq_prefix, profile.uuid, profile.config, getitem.
  rewrite Hp, Hq. cbn [mbind result_bind format_value].
  rewrite !format_rmq_prefix. by intros [= H].
Qed.

(** X10.  A profile whose configuration holds a string under the UUID
    key and a value under the user email key, with a configuration directory
    without a brace, has no attribute that raises. *)
Theorem attributes_readable (p : Profile) (u : string) (email : pyval) (a : attr) :
  no_brace AIIDA_CONFIG_FOLDER = true →
  _config p !! PROFILE_UUID_KEY = Some (PStr u) →
  _config p !! DEFAULT_USER_CONFIG_FIELD = Some email →
  ∃ v, profile.getattr p a = Ok v.
Proof.
  intros Hd Hu He.
  assert (profile.uuid p = Ok (PStr u)) as Huuid
    by (unfold profile.uuid, profile.config, getitem; by rewrite Hu).
  destruct a; cbn [profile.getattr]; eauto.
  - unfold profile.rmq_prefix. rewrite Huuid.
    cbn [mbind result_bind format_value]. rewrite format_rmq_prefix.
    cbn [mbind result_bind]. eauto.
  - unfold profile.default_user_email, profile.config, getitem, try_except.
    rewrite He. cbn [mbind result_bind]. eauto.
  - rewrite filepaths_layout by done. eauto.
Qed.

End profile_paths.

(** * Further properties of the NWChem translator *)

Section nwchem_lists.

Lemma for_each_Ok {A B : Type} (f : A → result B) (xs : list A) (ys : list B) :
  for_each f xs = Ok ys → Forall2 (λ x y, f x = Ok y) xs ys.
Proof.
  revert ys. induction xs as [|x xs IH]; intros ys; cbn [for_each].
  - intros [= <-]. constructor.
  - destruct (f x) as [y|e] eqn:Hy; cbn [mbind result_bind]; [| done].
    destruct (for_each f xs) as [ys'|e]; cbn [mbind result_bind]; [| done].
    intros [= <-]. constructor; [done | by apply IH].
Qed.

Lemma for_each_raises {A B : Type} (f : A → result B) (xs : list A) (e : exception) :
  (∀ x, x ∈ xs → (∃ y, f x = Ok y) ∨ f x = Raise e) →
  (∃ x, x ∈ xs ∧ f x = Raise e) →
  for_each f xs = Raise e.
Proof.
  induction xs as [|x xs IH]; intros Hall (z & Hz & Hfz).
  - by apply elem_of_nil in Hz.
  - cbn [for_each].
    destruct (Hall x) as [[y Hy] | Hx]; [by left | |by rewrite Hx].
    rewrite Hy. cbn [mbind result_bind].
    rewrite IH; [done | intros; apply Hall; by right |].
    apply elem_of_cons in Hz as [-> | Hz]; [congruence |]. eauto.
Qed.

Lemma entry_lookup (dictionary bs : gmap string pyval) (x field : string) :
  dictionary !! "basis_set" = Some (PDict bs) →
  (basis_set ← getitem (PDict dictionary) "basis_set";
   entry ← getitem basis_set x;
   getitem entry field)
  = (entry ← getitem (PDict bs) x; getitem entry field).
Proof. intros H. unfold getitem. by rewrite H. Qed.

(** What the list functions do once the [basis_set] entry is known to be
    a mapping. *)
Lemma list_functions_present (calc : Calculation) (bs : gmap string pyval) :
  output_dict calc !! "basis_set" = Some (PDict bs) →
  nwcpymatgen.get_atom_type_basisset calc
  = (l ← entries (output_dict calc) "description" (sorted (map_to_list bs).*1);
     Ok (Some l))
  ∧ nwcpymatgen.get_atom_type_valence_configuration calc
    = (l ← entries (output_dict calc) "types" (sorted (map_to_list bs).*1);
       Ok (Some l)).
Proof.
  intros H.
  unfold nwcpymatgen.get_atom_type_basisset,
    nwcpymatgen.get_atom_type_valence_configuration.
  cbn zeta. rewrite has_key_lookup, H, bool_decide_eq_true_2 by done.
  rewrite (get_atom_type_symbol_present calc bs H).
  cbn [negb mbind result_bind nwcpymatgen.iterate]. done.
Qed.

(** X11.  [get_software_package_version] never raises: it returns the
    value under [nwchem branch] when the [job_info] dictionary has one, and
    [None] when the dictionary lacks the key, is no dictionary, or could not
    be obtained. *)
Theorem software_package_version_total (job_info : result pyval) :
  nwcpymatgen.get_software_package_version job_info
  = Ok (match job_info with
        | Ok (PDict d) => default PNone (d !! "nwchem branch")
        | _ => PNone
        end).
Proof.
  unfold nwcpymatgen.get_software_package_version, try_except, getitem.
  destruct job_info as [[| | | |d]|e]; cbn [mbind result_bind]; try done.
  by destruct (d !! "nwchem branch").
Qed.

(** X12.  When every entry of the [basis_set] mapping is a sub-mapping
    and one of them has no [description], [get_atom_type_basisset] raises the
    [KeyError] for [description]; likewise [get_atom_type_valence_configuration]
    for [types]. *)
Theorem missing_entry_raises (calc : Calculation) (bs : gmap string pyval) :
  output_dict calc !! "basis_set" = Some (PDict bs) →
  (∀ x e, bs !! x = Some e → ∃ sub, e = PDict sub) →
  ((∃ x sub, bs !! x = Some (PDict sub) ∧ sub !! "description" = None) →
   nwcpymatgen.get_atom_type_basisset calc = Raise (KeyError "description"))
  ∧ ((∃ x sub, bs !! x = Some (PDict sub) ∧ sub !! "types" = None) →
     nwcpymatgen.get_atom_type_valence_configuration calc
     = Raise (KeyError "types")).
Proof.
  intros H Hsub.
  destruct (list_functions_present calc bs H) as [-> ->].
  destruct (sorted_keys bs) as (_ & _ & Hmem). cbn zeta in Hmem.
  assert (∀ field,
    (∃ x sub, bs !! x = Some (PDict sub) ∧ sub !! field = None) →
    entries (output_dict calc) field (sorted (map_to_list bs).*1)
    = Raise (KeyError field)) as Hfield.
  { intros field (x & sub & Hx & Hf). apply for_each_raises.
    - intros z Hz. apply Hmem in Hz as [e He].
      destruct (Hsub z e He) as [sub' ->].
      rewrite (entry_lookup _ bs) by done. unfold getitem. rewrite He.
      cbn [mbind result_bind]. destruct (sub' !! field); eauto.
    - exists x. split; [apply Hmem; eauto |].
      rewrite (entry_lookup _ bs) by done. unfold getitem. rewrite Hx.
      cbn [mbind result_bind]. by rewrite Hf. }
  split; intros Hm; by rewrite Hfield.
Qed.

(** X13.  Each of the three functions returns [None] only when the output
    dictionary has no [basis_set] key: with the key present the result is a
    list or an exception. *)
Theorem none_iff_no_basis_set (calc : Calculation) :
  (nwcpymatgen.get_atom_type_symbol calc = Ok None
   ↔ output_dict calc !! "basis_set" = None)
  ∧ (nwcpymatgen.get_atom_type_basisset calc = Ok None
     ↔ output_dict calc !! "basis_set" = None)
  ∧ (nwcpymatgen.get_atom_type_valence_configuration calc = Ok None
     ↔ output_dict calc !! "basis_set" = None).
Proof.
  unfold nwcpymatgen.get_atom_type_basisset,
    nwcpymatgen.get_atom_type_valence_configuration.
  cbn zeta.
  assert (nwcpymatgen.get_atom_type_symbol calc = Ok None
          ↔ output_dict calc !! "basis_set" = None) as Hsym.
  { unfold nwcpymatgen.get_atom_type_symbol. cbn zeta. rewrite has_key_lookup.
    destruct (output_dict calc !! "basis_set") as [v|] eqn:H.
    - rewrite bool_decide_eq_true_2 by done. cbn [negb].
      unfold getitem. rewrite H. cbn [mbind result_bind].
      by destruct v.
    - by rewrite bool_decide_eq_false_2 by tauto. }
  split; [done |].
  rewrite has_key_lookup.
  destruct (output_dict calc !! "basis_set") as [v|] eqn:H.
  - rewrite bool_decide_eq_true_2 by done. cbn [negb].
    destruct (nwcpymatgen.get_atom_type_symbol calc) as [[xs|]|e];
      cbn [mbind result_bind nwcpymatgen.iterate]; [| by split; split ..].
    split.
    + destruct (for_each _ xs); cbn [mbind result_bind]; by split.
    + destruct (for_each _ xs); cbn [mbind result_bind]; by split.
  - rewrite bool_decide_eq_false_2 by tauto. by split; split.
Qed.

(** X14.  The list of symbols does not depend on the order in which the
    dictionary yields its keys: any list that is sorted, free of duplicates
    and holds exactly the keys of the [basis_set] mapping is the list
    [get_atom_type_symbol] returns. *)
Theorem symbols_canonical (calc : Calculation) (bs : gmap string pyval)
    (l : list string) :
  output_dict calc !! "basis_set" = Some (PDict bs) →
  Sorted str_le l → NoDup l → (∀ x, x ∈ l ↔ is_Some (bs !! x)) →
  nwcpymatgen.get_atom_type_symbol calc = Ok (Some l).
Proof.
  intros H Hs Hn Hm. rewrite (get_atom_type_symbol_present calc bs H).
  do 2 f_equal.
  destruct (sorted_keys bs) as (Hs' & Hn' & Hm'). cbn zeta in *.
  apply (Sorted_unique str_le); [done .. |].
  apply NoDup_Permutation; [done .. |].
  intros x. by rewrite Hm, Hm'.
Qed.

(** X15.  A list returned by [get_atom_type_basisset] or by
    [get_atom_type_valence_configuration] is aligned with the list of
    symbols: [basis_set] is a mapping, [get_atom_type_symbol] returns a list
    of the same length, and the element at each index is the [description],
    respectively the [types], entry of the sub-mapping of the symbol at that
    index. *)
Theorem lists_aligned (calc : Calculation) (l : list pyval) :
  let aligned (field : string) :=
    ∃ bs symbols,
      output_dict calc !! "basis_set" = Some (PDict bs)
      ∧ nwcpymatgen.get_atom_type_symbol calc = Ok (Some symbols)
      ∧ length l = length symbols
      ∧ ∀ i x, symbols !! i = Some x →
          ∃ sub, bs !! x = Some (PDict sub) ∧ sub !! field = l !! i in
  (nwcpymatgen.get_atom_type_basisset calc = Ok (Some l) → aligned "description")
  ∧ (nwcpymatgen.get_atom_type_valence_configuration calc = Ok (Some l)
     → aligned "types").
Proof.
  cbn zeta.
  assert (∀ bs field,
    output_dict calc !! "basis_set" = Some (PDict bs) →
    (l' ← entries (output_dict calc) field (sorted (map_to_list bs).*1);
     Ok (Some l')) = Ok (Some l) →
    length l = length (sorted (map_to_list bs).*1)
    ∧ ∀ i x, sorted (map_to_list bs).*1 !! i = Some x →
        ∃ sub, bs !! x = Some (PDict sub) ∧ sub !! field = l !! i) as Hfield.
  { intros bs field H Hl.
    destruct (entries _ field _) as [l'|e] eqn:He; [| done].
    cbn [mbind result_bind] in Hl. injection Hl as ->.
    apply for_each_Ok in He.
    split; [symmetry; by eapply Forall2_length |].
    intros i x Hi.
    destruct (Forall2_lookup_l _ _ _ _ _ He Hi) as (y & Hy & Hf).
    cbn beta in Hf. rewrite (entry_lookup _ bs) in Hf by done.
    unfold getitem in Hf.
    destruct (bs !! x) as [[| | | |sub]|]; cbn [mbind result_bind] in Hf;
      try done.
    exists sub. split; [done |]. rewrite Hy.
    by destruct (sub !! field) as [v|]; [injection Hf as -> |]. }
  assert (∀ r : result (option (list pyval)),
    (if negb (has_key (output_dict calc) "basis_set") then Ok None else r)
    = Ok (Some l) →
    ∃ v, output_dict calc !! "basis_set" = Some v) as Hpresent.
  { intros r. rewrite has_key_lookup.
    destruct (output_dict calc !! "basis_set") as [v|]; [eauto |].
    by rewrite bool_decide_eq_false_2 by tauto. }
  assert (∀ v, output_dict calc !! "basis_set" = Some v →
    (∀ bs, v ≠ PDict bs) →
    nwcpymatgen.get_atom_type_symbol calc = Raise AttributeError) as Hbad.
  { intros v H Hv. unfold nwcpymatgen.get_atom_type_symbol. cbn zeta.
    rewrite has_key_lookup, H, bool_decide_eq_true_2 by done. cbn [negb].
    unfold getitem. rewrite H. cbn [mbind result_bind].
    destruct v; try done. by destruct (Hv d). }
  split; intros Hl.
  - destruct (Hpresent _ Hl) as [v H].
    destruct v as [| | | |bs].
    1-4: unfold nwcpymatgen.get_atom_type_basisset in Hl; cbn zeta in Hl;
         rewrite has_key_lookup, H, bool_decide_eq_true_2 in Hl by done;
         rewrite (Hbad _ H) in Hl by done; done.
    destruct (list_functions_present calc bs H) as [Hb _]. rewrite Hb in Hl.
    destruct (Hfield bs "description" H Hl) as [Hlen Hidx].
    exists bs, (sorted (map_to_list bs).*1).
    split; [done |]. split; [by apply get_atom_type_symbol_present |]. done.
  - destruct (Hpresent _ Hl) as [v H].
    destruct v as [| | | |bs].
    1-4: unfold nwcpymatgen.get_atom_type_valence_configuration in Hl;
         cbn zeta in Hl;
         rewrite has_key_lookup, H, bool_decide_eq_true_2 in Hl by done;
         rewrite (Hbad _ H) in Hl by done; done.
    destruct (list_functions_present calc bs H) as [_ Hv]. rewrite Hv in Hl.
    destruct (Hfield bs "types" H Hl) as [Hlen Hidx].
    exists bs, (sorted (map_to_list bs).*1).
    split; [done |]. split; [by apply get_atom_type_symbol_present |]. done.
Qed.

(** X16.  When [basis_set] is present and is no mapping, it has no
    [keys()]: the three functions raise [AttributeError]. *)
Theorem basis_set_not_a_mapping (calc : Calculation) (v : pyval) :
  output_dict calc !! "basis_set" = Some v →
  (∀ bs, v ≠ PDict bs) →
  nwcpymatgen.get_atom_type_symbol calc = Raise AttributeError
  ∧ nwcpymatgen.get_atom_type_basisset calc = Raise AttributeError
  ∧ nwcpymatgen.get_atom_type_valence_configuration calc = Raise AttributeError.
Proof.
  intros H Hv.
  assert (nwcpymatgen.get_atom_type_symbol calc = Raise AttributeError) as Hs.
  { unfold nwcpymatgen.get_atom_type_symbol. cbn zeta.
    rewrite has_key_lookup, H, bool_decide_eq_true_2 by done. cbn [negb].
    unfold getitem. rewrite H. cbn [mbind result_bind].
    destruct v; try done. by destruct (Hv d). }
  split; [done |].
  unfold nwcpymatgen.get_atom_type_basisset,
    nwcpymatgen.get_atom_type_valence_configuration.
  cbn zeta. rewrite has_key_lookup, H, bool_decide_eq_true_2 by done.
  by rewrite Hs.
Qed.

(** X17.  For an empty [basis_set] mapping the three functions return the
    empty list, not [None]. *)
Theorem empty_basis_set (calc : Calculation) :
  output_dict calc !! "basis_set" = Some (PDict ∅) →
  nwcpymatgen.get_atom_type_symbol calc = Ok (Some [])
  ∧ nwcpymatgen.get_atom_type_basisset calc = Ok (Some [])
  ∧ nwcpymatgen.get_atom_type_valence_configuration calc = Ok (Some []).
Proof.
  intros H.
  destruct (list_functions_present calc ∅ H) as [-> ->].
  rewrite (get_atom_type_symbol_present calc ∅ H).
  rewrite map_to_list_empty. done.
Qed.

End nwchem_lists.

(** * The further properties at concrete inputs *)

Lemma get_profile_config_lookup_witness :
  profile.get_profile_config plain_world (Some "default")
  = Ok (PDict default_profile_config).
Proof.
  apply (proj2 (get_profile_config_lookup plain_world store "default"
                  (PDict default_profile_config) eq_refl)).
  exists store_profiles. split; vm_compute; reflexivity.
Defined.

Lemma missing_profiles_table_rejected_witness :
  profile.get_profile no_profiles_world (Some "default")
  = Raise (ProfileConfigurationError
             ("invalid profile name " ++ quote ++ "default" ++ quote)).
Proof.
  apply (missing_profiles_table_rejected no_profiles_world
           (list_to_map [("default_profile", PStr "default")]) "default");
    [reflexivity | vm_compute; reflexivity].
Defined.

Lemma loader_error_propagates_witness :
  profile.get_profile_config corrupt_config_world (Some "default")
  = Raise ValueError.
Proof.
  apply (loader_error_propagates corrupt_config_world ValueError "default");
    reflexivity.
Defined.

Lemma profiles_not_a_mapping_witness :
  profile.get_profile_config bad_profiles_world (Some "default")
  = Raise TypeError.
Proof.
  apply (profiles_not_a_mapping bad_profiles_world
           (list_to_map [("profiles", PStr "default")]) (PStr "default")
           "default");
    [reflexivity | vm_compute; reflexivity | intros profiles; discriminate].
Defined.

Lemma override_selects_profile_witness :
  profile.get_profile override_world None
  = profile.get_profile override_world (Some "test_abc").
Proof.
  apply (override_selects_profile override_world "test_abc");
    [reflexivity | discriminate].
Defined.

Lemma get_profile_follows_config_witness :
  profile.get_profile plain_world None = Ok default_profile
  ∧ profile.get_profile plain_world (Some "nonexistent")
    = Raise (ProfileConfigurationError
               ("invalid profile name " ++ quote ++ "nonexistent" ++ quote)).
Proof.
  split.
  - destruct (proj2 (get_profile_follows_config plain_world None)
                default_profile_config) as (n & Hn & Hp);
      [vm_compute; reflexivity |].
    destruct Hn as [Hn | [_ Hn]]; [discriminate Hn |].
    vm_compute in Hn. injection Hn as <-. exact Hp.
  - apply (proj1 (get_profile_follows_config plain_world (Some "nonexistent"))).
    vm_compute. reflexivity.
Defined.

Lemma filepaths_layout_witness :
  profile.filepaths default_profile = Ok (layout "~/.aiida/" "default").
Proof.
  apply (filepaths_layout (stp := aiida_setup) default_profile). reflexivity.
Defined.

Lemma templated_paths_injective_witness :
  (fp ← profile.filepaths default_profile; path_at fp ["daemon"; "pid"]%list)
  ≠ (fp ← profile.filepaths second_profile; path_at fp ["daemon"; "pid"]%list).
Proof.
  intros H.
  destruct (templated_paths_injective (stp := aiida_setup) default_profile
              second_profile eq_refl) as (Hinj & _ & _).
  apply Hinj in H; [discriminate H |].
  eapply (list_elem_of_lookup_2 _ 5). reflexivity.
Defined.

Lemma rmq_prefix_injective_witness :
  profile.rmq_prefix default_profile ≠ profile.rmq_prefix other_profile.
Proof.
  intros H.
  apply (rmq_prefix_injective (stp := aiida_setup) default_profile other_profile
           "9f3a1c2e5b7d4e0fa1b2c3d4e5f60718"
           "27c0e9d1a4b84f6c8d3e5f7a9b1c2d3e") in H;
    [discriminate H | vm_compute; reflexivity | vm_compute; reflexivity].
Defined.

Lemma attributes_readable_witness :
  ∃ v, profile.getattr default_profile a_rmq_prefix = Ok v.
Proof.
  apply (attributes_readable (stp := aiida_setup) default_profile
           "9f3a1c2e5b7d4e0fa1b2c3d4e5f60718" (PStr "user@example.org")
           a_rmq_prefix);
    [reflexivity | vm_compute; reflexivity | vm_compute; reflexivity].
Defined.

Lemma one_entry_sub_mapping (k : string) (sub : gmap string pyval)
    (x : string) (e : pyval) :
  (list_to_map [(k, PDict sub)] : gmap string pyval) !! x = Some e →
  ∃ sub', e = PDict sub'.
Proof.
  cbn [list_to_map foldr uncurry]. intros H.
  apply lookup_insert_Some in H as [[_ <-] | [_ H]]; [eauto |].
  by rewrite lookup_empty in H.
Defined.

Lemma missing_entry_raises_witness :
  nwcpymatgen.get_atom_type_basisset partial_calc
  = Raise (KeyError "description")
  ∧ nwcpymatgen.get_atom_type_valence_configuration untyped_calc
    = Raise (KeyError "types").
Proof.
  split.
  - apply (proj1 (missing_entry_raises partial_calc partial_basis_set eq_refl
                    (one_entry_sub_mapping "H" _))).
    exists "H", (list_to_map [("types", PStr "2s")]).
    split; vm_compute; reflexivity.
  - apply (proj2 (missing_entry_raises untyped_calc untyped_basis_set eq_refl
                    (one_entry_sub_mapping "H" _))).
    exists "H", (list_to_map [("description", PStr "sto-3g")]).
    split; vm_compute; reflexivity.
Defined.

Lemma water_basis_set_keys (x : string) :
  x ∈ ["H"; "O"]%list ↔ is_Some (water_basis_set !! x).
Proof.
  unfold water_basis_set. cbn [list_to_map foldr uncurry].
  rewrite !lookup_insert_is_Some, lookup_empty, <- not_eq_None_Some.
  rewrite !elem_of_cons, elem_of_nil. cbn [fst].
  destruct (decide (x = "O")) as [-> | HO];
    [split; intros _; [by left | by right; left] |].
  destruct (decide (x = "H")) as [-> | HH];
    [split; intros _; [right; split; [done | by left] | by left] |].
  split; [intros [-> | [-> | []]]; done |].
  intros [<- | [_ [<- | [_ Hn]]]]; done.
Defined.

Lemma symbols_canonical_witness :
  nwcpymatgen.get_atom_type_symbol water_calc = Ok (Some ["H"; "O"]%list).
Proof.
  apply (symbols_canonical water_calc water_basis_set).
  - vm_compute. reflexivity.
  - repeat constructor.
  - apply (bool_decide_unpack _). vm_compute. exact I.
  - exact water_basis_set_keys.
Defined.

Lemma lists_aligned_witness :
  ∃ bs symbols,
    output_dict water_calc !! "basis_set" = Some (PDict bs)
    ∧ nwcpymatgen.get_atom_type_symbol water_calc = Ok (Some symbols)
    ∧ length [PStr "sto-3g"; PStr "6-31g"] = length symbols.
Proof.
  destruct (proj1 (lists_aligned water_calc [PStr "sto-3g"; PStr "6-31g"]%list))
    as (bs & symbols & H1 & H2 & H3 & _); [vm_compute; reflexivity |].
  exists bs, symbols. split; [exact H1 |]. split; [exact H2 | exact H3].
Defined.

Lemma basis_set_not_a_mapping_witness :
  nwcpymatgen.get_atom_type_symbol string_basis_calc = Raise AttributeError
  ∧ nwcpymatgen.get_atom_type_basisset string_basis_calc = Raise AttributeError
  ∧ nwcpymatgen.get_atom_type_valence_configuration string_basis_calc
    = Raise AttributeError.
Proof.
  apply (basis_set_not_a_mapping string_basis_calc (PStr "6-31g"));
    [vm_compute; reflexivity | intros bs; discriminate].
Defined.

Lemma empty_basis_set_witness :
  nwcpymatgen.get_atom_type_symbol empty_basis_calc = Ok (Some [])
  ∧ nwcpymatgen.get_atom_type_basisset empty_basis_calc = Ok (Some [])
  ∧ nwcpymatgen.get_atom_type_valence_configuration empty_basis_calc
    = Ok (Some []).
Proof.
  apply (empty_basis_set empty_basis_calc). vm_compute. reflexivity.
Defined.

Example software_package_version_examples :
  nwcpymatgen.get_software_package_version (Ok water_job_info) = Ok (PStr "6.6")
  ∧ nwcpymatgen.get_software_package_version (Raise AttributeError) = Ok PNone
  ∧ nwcpymatgen.get_software_package_version (Ok (PDict ∅)) = Ok PNone.
Proof. repeat split; vm_compute; reflexivity. Qed.
